(** * The parser-generating agent of [agent.py]

    A shallow embedding of the generate / execute / verify / repair loop of
    [agent.py] ([ParserGenerator.run_agent_loop] and the operations it calls,
    and [main]), with the properties its specification states about it.

    Python objects are modelled by the data they carry: the [AgentState]
    dataclass is a record, the dictionary returned by [test_parser] is a
    two-case variant (one case per dictionary the function can build), a
    pandas [DataFrame] is a row index with a list of named, typed columns.
    Everything outside the program (the file system, the clock, pandas' CSV
    reader, the JSON encoder, the text-generation service and the behaviour
    of a generated candidate once it is loaded) is an oracle of an
    environment record [Env]; every theorem is proved for all environments
    unless it says otherwise.  What the program prints is left out. *)

From Stdlib Require Import ZArith Lia Bool.
From Stdlib Require Import SpecFloat.
From stdpp Require Import gmap strings list.

Local Open Scope Z_scope.
Local Open Scope string_scope.
Local Open Scope list_scope.

(** ** Exceptions

    Python separates the exceptions that derive from [Exception] (every
    error: [AttributeError], [TypeError], [OSError], ...) from those that
    derive from [BaseException] only ([SystemExit], [KeyboardInterrupt]).
    All handlers of [agent.py] are [except Exception as e] and use [str(e)]
    only, so an exception is modelled by its kind and its text. *)

Inductive exn : Type :=
| Exception (msg : string)
| SystemExiting (msg : string).

Inductive result (A : Type) : Type :=
| Ok (a : A)
| Raise (e : exn).

Arguments Ok {A} a.
Arguments Raise {A} e.

(** Outcome of a library call that fails with ordinary errors only
    ([open], [pd.read_csv], [json.dumps], the provider's client). *)
Inductive fallible (A : Type) : Type :=
| Success (a : A)
| Failure (msg : string).

Arguments Success {A} a.
Arguments Failure {A} msg.

Definition lift_fallible {A} (r : fallible A) : result A :=
  match r with
  | Success a => Ok a
  | Failure msg => Raise (Exception msg)
  end.

(** ** Tables

    A [DataFrame]: a row index (the labels of its rows, in order) and an
    ordered list of columns, each with its label and a typed array.
    Integer and boolean arrays have no null; the null of a [float64] array
    is NaN; text is held either in an [object] array or in an array of the
    dedicated [str] dtype, both of strings or nulls. *)

Inductive ColumnData : Type :=
| Int64 (xs : list Z)
| Float64 (xs : list spec_float)
| BoolArr (xs : list bool)
| ObjectArr (xs : list (option string))
| StrArr (xs : list (option string)).

Inductive dtype : Type := dt_int64 | dt_float64 | dt_bool | dt_object | dt_str.

Record Column : Type := mkColumn {
  col_name : string;
  col_data : ColumnData
}.

(** A row label: a position or a text. *)
Inductive Label : Type :=
| IntLabel (z : Z)
| StrLabel (s : string).

Record DataFrame : Type := mkDataFrame {
  df_index : list Label;
  df_cols : list Column
}.

(** [len(df)]. *)
Definition df_rows (df : DataFrame) : nat := length (df_index df).

(** The default index [RangeIndex(n)] that [pd.read_csv] gives a frame:
    0, 1, ..., n - 1. *)
Definition range_index (n : nat) : list Label :=
  map (fun i => IntLabel (Z.of_nat i)) (seq 0 n).

Definition col_dtype (d : ColumnData) : dtype :=
  match d with
  | Int64 _ => dt_int64
  | Float64 _ => dt_float64
  | BoolArr _ => dt_bool
  | ObjectArr _ => dt_object
  | StrArr _ => dt_str
  end.

Definition col_len (d : ColumnData) : nat :=
  match d with
  | Int64 xs => length xs
  | Float64 xs => length xs
  | BoolArr xs => length xs
  | ObjectArr xs => length xs
  | StrArr xs => length xs
  end.

(** [df.shape] and [list(df.columns)]. *)
Definition shape (df : DataFrame) : nat * nat :=
  (df_rows df, length (df_cols df)).

Definition columns (df : DataFrame) : list string :=
  map col_name (df_cols df).

Definition well_formed (df : DataFrame) : Prop :=
  Forall (fun c => col_len (col_data c) = df_rows df) (df_cols df).

(** The empty frame built by [pd.DataFrame()]. *)
Definition empty_frame : DataFrame := mkDataFrame [] [].

(** *** [DataFrame.equals]

    pandas documents [equals] as: same shape and same elements, NaNs in the
    same location count as equal, the row index and the column labels must
    agree and corresponding columns must be of the same dtype.  Nothing is
    rounded and nothing is converted. *)

Fixpoint all2 {A} (eqb : A -> A -> bool) (xs ys : list A) : bool :=
  match xs, ys with
  | [], [] => true
  | x :: xs', y :: ys' => eqb x y && all2 eqb xs' ys'
  | _, _ => false
  end.

Definition sf_is_nan (x : spec_float) : bool :=
  match x with S754_nan => true | _ => false end.

(** Two floats of one location: equal for IEEE [==], or both NaN. *)
Definition float_same (x y : spec_float) : bool :=
  SFeqb x y || (sf_is_nan x && sf_is_nan y).

Definition object_same (x y : option string) : bool :=
  match x, y with
  | None, None => true
  | Some s, Some t => String.eqb s t
  | _, _ => false
  end.

Definition data_equals (a b : ColumnData) : bool :=
  match a, b with
  | Int64 xs, Int64 ys => all2 Z.eqb xs ys
  | Float64 xs, Float64 ys => all2 float_same xs ys
  | BoolArr xs, BoolArr ys => all2 Bool.eqb xs ys
  | ObjectArr xs, ObjectArr ys => all2 object_same xs ys
  | StrArr xs, StrArr ys => all2 object_same xs ys
  | _, _ => false
  end.

Definition column_equals (a b : Column) : bool :=
  String.eqb (col_name a) (col_name b) && data_equals (col_data a) (col_data b).

Definition label_eqb (a b : Label) : bool :=
  match a, b with
  | IntLabel x, IntLabel y => Z.eqb x y
  | StrLabel s, StrLabel t => String.eqb s t
  | _, _ => false
  end.

Definition equals (a b : DataFrame) : bool :=
  all2 label_eqb (df_index a) (df_index b)
  && all2 column_equals (df_cols a) (df_cols b).

(** [list(result_df.columns) == list(expected_df.columns)]: list equality of
    strings, position by position. *)
Definition columns_eqb (xs ys : list string) : bool := all2 String.eqb xs ys.

(** [df.head(n)] and [df.dtypes.to_dict()], used by the schema analysis. *)
Definition head_data (n : nat) (d : ColumnData) : ColumnData :=
  match d with
  | Int64 xs => Int64 (take n xs)
  | Float64 xs => Float64 (take n xs)
  | BoolArr xs => BoolArr (take n xs)
  | ObjectArr xs => ObjectArr (take n xs)
  | StrArr xs => StrArr (take n xs)
  end.

Definition head (n : nat) (df : DataFrame) : DataFrame :=
  mkDataFrame (take n (df_index df))
    (map (fun c => mkColumn (col_name c) (head_data n (col_data c))) (df_cols df)).

Definition dtypes (df : DataFrame) : list (string * dtype) :=
  map (fun c => (col_name c, col_dtype (col_data c))) (df_cols df).

(** ** Run state *)

(** The dictionary returned by [test_parser]: either the five-key dictionary
    of the comparison path ([success], [result_shape], [expected_shape],
    [columns_match], [data_match]) or the two-key dictionary of the handler
    ([success: False], [error]). *)
Inductive TestResult : Type :=
| Compared (success_flag : bool) (result_shape expected_shape : nat * nat)
    (columns_match data_match : bool)
| Errored (error : string).

(** [test_result.get("success", False)]. *)
Definition get_success (r : TestResult) : bool :=
  match r with
  | Compared s _ _ _ _ => s
  | Errored _ => false
  end.

Record AgentState : Type := mkAgentState {
  target_bank : string;
  pdf_path : string;
  csv_path : string;
  attempt : Z;
  max_attempts : Z;
  parser_code : string;
  test_results : list TestResult;
  errors : list string;
  success : bool
}.

(** [AgentState(target_bank=..., pdf_path=..., csv_path=...)] with the
    dataclass defaults. *)
Definition new_state (target pdf csv : string) : AgentState :=
  mkAgentState target pdf csv 1 3 "" [] [] false.

Definition set_parser_code (code : string) (st : AgentState) : AgentState :=
  mkAgentState (target_bank st) (pdf_path st) (csv_path st) (attempt st)
    (max_attempts st) code (test_results st) (errors st) (success st).

Definition append_test_result (r : TestResult) (st : AgentState) : AgentState :=
  mkAgentState (target_bank st) (pdf_path st) (csv_path st) (attempt st)
    (max_attempts st) (parser_code st) (test_results st ++ [r]) (errors st)
    (success st).

Definition set_success (b : bool) (st : AgentState) : AgentState :=
  mkAgentState (target_bank st) (pdf_path st) (csv_path st) (attempt st)
    (max_attempts st) (parser_code st) (test_results st) (errors st) b.

Definition set_attempt (n : Z) (st : AgentState) : AgentState :=
  mkAgentState (target_bank st) (pdf_path st) (csv_path st) n
    (max_attempts st) (parser_code st) (test_results st) (errors st)
    (success st).

(** What [analyze_csv_schema] returns: the schema dictionary, or the
    dictionary with the single key [error]. *)
Inductive CsvSchema : Type :=
| Schema (cols : list string) (col_dtypes : list (string * dtype))
    (sample_data : DataFrame) (total_rows : nat)
| SchemaError (error : string).

(** ** The world outside the program *)

Inductive Provider : Type := Google | Groq.

(** What a candidate's [parse] can hand back: a table; a pandas [Series]
    (it has [equals] and [shape], and no [columns]); or an object that has
    no [equals] attribute ([None], a list, a dict, a string, ...), named by
    its type. *)
Inductive PyObj : Type :=
| PyFrame (df : DataFrame)
| PySeries (values : ColumnData)
| PyOther (type_name : string).

(** A loaded candidate module: its [parse] attribute, when it has one. *)
Record Module : Type := mkModule {
  mod_parse : option (string -> result PyObj)
}.

(** The calls the loop makes, in the order it makes them. *)
Inductive Event : Type :=
| EvAttempt (n budget : Z)
| EvAnalyzePdf (path : string)
| EvAnalyzeCsv (path : string)
| EvRequest (prompt : string)
| EvTest (code : string).

Record World : Type := mkWorld {
  clock : nat;
  fs : gset string;
  trace : list Event
}.

(** The oracles.  Those that can answer differently from one call to the
    next take the clock of the operation that calls them ([fresh] below
    advances it once per operation).  Loading and running a candidate can
    raise anything; the library calls fail with ordinary errors.
    [open_file] is [open(path, 'w')] and [write_file] the [f.write] that
    follows it; [writes_bytecode] tells whether loading the file makes the
    import machinery write its bytecode cache, named after [cache_tag]
    ([sys.implementation.cache_tag]). *)
Record Env : Type := mkEnv {
  google_available : bool;
  groq_available : bool;
  getenv : string -> option string;
  read_text : nat -> string -> fallible string;
  read_csv : nat -> string -> fallible DataFrame;
  json_dumps_schema : CsvSchema -> fallible string;
  json_dumps_result : TestResult -> fallible string;
  llm : Provider -> nat -> string -> fallible string;
  now : nat -> string;
  open_file : nat -> string -> fallible unit;
  write_file : nat -> string -> fallible unit;
  cache_tag : string;
  writes_bytecode : nat -> string -> bool;
  exec_module : nat -> string -> result Module
}.

(** The whole of [with open(path, 'w') as f: f.write(text)]. *)
Definition open_write (env : Env) (n : nat) (path : string) : fallible unit :=
  match open_file env n path with
  | Failure msg => Failure msg
  | Success _ => write_file env n path
  end.

(** ** A state and exception monad over the world *)

Definition M (A : Type) : Type := World -> result A * World.

Definition ret {A} (a : A) : M A := fun w => (Ok a, w).

Definition bind {A B} (m : M A) (k : A -> M B) : M B :=
  fun w =>
    match m w with
    | (Ok a, w') => k a w'
    | (Raise e, w') => (Raise e, w')
    end.

Notation "x <- m ;; k" := (bind m (fun x => k))
  (at level 100, m at next level, right associativity).
Notation "m ;;; k" := (bind m (fun _ => k))
  (at level 100, right associativity).

Definition raise {A} (e : exn) : M A := fun w => (Raise e, w).

Definition call {A} (r : result A) : M A := fun w => (r, w).

(** [try: body except Exception as e: handler(str(e))]: effects of the body
    up to the raise stay; what does not derive from [Exception] passes. *)
Definition try_except {A} (body : M A) (handler : string -> M A) : M A :=
  fun w =>
    match body w with
    | (Raise (Exception msg), w') => handler msg w'
    | other => other
    end.

Definition fresh : M nat :=
  fun w => (Ok (clock w), mkWorld (S (clock w)) (fs w) (trace w)).

Definition emit (ev : Event) : M unit :=
  fun w => (Ok tt, mkWorld (clock w) (fs w) (trace w ++ [ev])).

Definition create_file (path : string) : M unit :=
  fun w => (Ok tt, mkWorld (clock w) ({[path]} ∪ fs w) (trace w)).

Definition os_remove (path : string) : M unit :=
  fun w => (Ok tt, mkWorld (clock w) (fs w ∖ {[path]}) (trace w)).

(** ** Texts *)

Definition nl : string := String (Ascii.ascii_of_nat 10) EmptyString.

Definition unlines (ls : list string) : string := String.concat nl ls.

(** [s.endswith(suf)]. *)
Definition ends_with (s suf : string) : bool :=
  let n := String.length s in
  let k := String.length suf in
  (k <=? n)%nat && String.eqb (String.substring (n - k) k s) suf.

(** The f-string of [generate_parser_code]. *)
Definition generation_prompt (bank_name pdf_content schema_json : string) : string :=
  unlines [
    "";
    "You are an expert Python developer specializing in PDF parsing. Create a custom parser for "
      +:+ bank_name +:+ " bank statements.";
    "";
    "PDF Content Structure:";
    pdf_content;
    "";
    "Expected CSV Schema:";
    schema_json;
    "";
    "Requirements:";
    "1. Create a function `parse(pdf_path: str) -> pd.DataFrame`";
    "2. The function must return a DataFrame matching the CSV schema exactly";
    "3. Handle date parsing, number formatting, and text extraction";
    "4. Include proper error handling and validation";
    "5. Use pandas, pdfplumber, and other standard libraries";
    "6. Add comprehensive docstrings and type hints";
    "";
    "Generate ONLY the Python code, no explanations:";
    ""
  ].

(** The text [generate_parser_code] returns when the provider fails. *)
Definition placeholder (msg : string) : string :=
  "# Error generating code: " +:+ msg +:+ nl +:+ nl
  +:+ "# Placeholder parser code" +:+ nl
  +:+ "import pandas as pd" +:+ nl +:+ nl
  +:+ "def parse(pdf_path: str) -> pd.DataFrame:" +:+ nl
  +:+ "    return pd.DataFrame()".

(** The f-string of [fix_parser_code]. *)
Definition repair_prompt (results_json pdf_content schema_json parser_code : string)
    : string :=
  unlines [
    "";
    "Previous parser failed with these issues:";
    results_json;
    "";
    "PDF Content:";
    pdf_content;
    "";
    "Expected Schema:";
    schema_json;
    "";
    "Previous Code:";
    parser_code;
    "";
    "Please fix the parser code to address the issues above. Focus on:";
    "1. Correct column names and data types";
    "2. Proper date parsing";
    "3. Number formatting";
    "4. Text extraction logic";
    "5. Error handling";
    "";
    "Generate ONLY the corrected Python code:";
    ""
  ].

(** ** The operations of [ParserGenerator] *)

Section Agent.

Variable env : Env.

(** [_setup_llm]: [true] when a client is built, [false] when the
    constructor ends the process with [sys.exit(1)]. *)
Definition has_key (name : string) : bool :=
  match getenv env name with
  | Some k => negb (String.eqb k "")
  | None => false
  end.

Definition setup_llm (api_provider : Provider) : bool :=
  match api_provider with
  | Google => google_available env && has_key "GOOGLE_API_KEY"
  | Groq => groq_available env && has_key "GROQ_API_KEY"
  end.

(** [analyze_pdf_structure]: the whole body is inside [try]. *)
Definition analyze_pdf_structure (pdf_path : string) : M string :=
  n <- fresh ;;
  emit (EvAnalyzePdf pdf_path) ;;;
  try_except
    (if ends_with pdf_path ".txt"
     then call (lift_fallible (read_text env n pdf_path))
     else ret "PDF content would be extracted here")
    (fun msg => ret ("Error reading PDF: " +:+ msg)).

(** [analyze_csv_schema]: the whole body is inside [try]. *)
Definition analyze_csv_schema (csv_path : string) : M CsvSchema :=
  n <- fresh ;;
  emit (EvAnalyzeCsv csv_path) ;;;
  try_except
    (df <- call (lift_fallible (read_csv env n csv_path)) ;;
     ret (Schema (columns df) (dtypes df) (head 3 df) (df_rows df)))
    (fun msg => ret (SchemaError msg)).

(** [generate_parser_code]: the prompt (with its [json.dumps]) is built
    before the [try]; only the request to the provider is inside it. *)
Definition generate_parser_code (api_provider : Provider)
    (pdf_content : string) (csv_schema : CsvSchema) (bank_name : string) : M string :=
  n <- fresh ;;
  schema_json <- call (lift_fallible (json_dumps_schema env csv_schema)) ;;
  let prompt := generation_prompt bank_name pdf_content schema_json in
  try_except
    (emit (EvRequest prompt) ;;;
     call (lift_fallible (llm env api_provider n prompt)))
    (fun msg => ret (placeholder msg)).

(** [result_df.equals(expected_df)], [result_df.shape] and
    [result_df.columns] on what [parse] returned. *)
Definition no_attribute (type_name attr : string) : exn :=
  Exception ("'" +:+ type_name +:+ "' object has no attribute '" +:+ attr +:+ "'").

(** [equals] answers [False] for an object of another class. *)
Definition py_equals (r : PyObj) (expected : DataFrame) : result bool :=
  match r with
  | PyFrame df => Ok (equals df expected)
  | PySeries _ => Ok false
  | PyOther ty => Raise (no_attribute ty "equals")
  end.

(** The two attribute reads of the dictionary, [result_df.shape] then
    [result_df.columns].  A [Series] has a [shape] (a 1-tuple, read and then
    lost) and no [columns]. *)
Definition py_shape_and_columns (r : PyObj) : result ((nat * nat) * list string) :=
  match r with
  | PyFrame df => Ok (shape df, columns df)
  | PySeries _ => Raise (no_attribute "Series" "columns")
  | PyOther ty => Raise (no_attribute ty "shape")
  end.

(** [module.parse]: the attribute lookup. *)
Definition get_parse (m : Module) : result (string -> result PyObj) :=
  match mod_parse m with
  | Some f => Ok f
  | None => Raise (Exception "module 'temp_parser' has no attribute 'parse'")
  end.

Definition parser_file_name (n : nat) : string :=
  "temp_parser_" +:+ now env n +:+ ".py".

(** The bytecode cache of a temporary parser file, and what loading the
    file does on disk: the import machinery writes the cache (and its
    directory) beside the source, whether or not running the module then
    raises. *)
Definition bytecode_file (n : nat) : string :=
  "__pycache__/temp_parser_" +:+ now env n +:+ "." +:+ cache_tag env +:+ ".pyc".

Definition write_bytecode (n : nat) (parser_file : string) : M unit :=
  fun w =>
    if writes_bytecode env n parser_file
    then (Ok tt, mkWorld (clock w)
                   ({[ "__pycache__" ]} ∪ {[ bytecode_file n ]} ∪ fs w) (trace w))
    else (Ok tt, w).

(** [test_parser]: one [try] around everything, one handler.  The file is
    on disk once [open] has succeeded, whatever [f.write] does.  Beyond
    the bytecode cache, a candidate is modelled by what it returns or
    raises and does not touch the file system, so [os.remove] finds the
    file it is asked to remove. *)
Definition test_parser (parser_code pdf_path csv_path : string) : M TestResult :=
  n <- fresh ;;
  emit (EvTest parser_code) ;;;
  try_except
    (let parser_file := parser_file_name n in
     call (lift_fallible (open_file env n parser_file)) ;;;
     create_file parser_file ;;;
     call (lift_fallible (write_file env n parser_file)) ;;;
     write_bytecode n parser_file ;;;
     module <- call (exec_module env n parser_code) ;;
     parse <- call (get_parse module) ;;
     result_df <- call (parse pdf_path) ;;
     expected_df <- call (lift_fallible (read_csv env n csv_path)) ;;
     is_equal <- call (py_equals result_df expected_df) ;;
     os_remove parser_file ;;;
     shape_and_columns <- call (py_shape_and_columns result_df) ;;
     ret (Compared is_equal (fst shape_and_columns) (shape expected_df)
            (columns_eqb (snd shape_and_columns) (columns expected_df))
            is_equal))
    (fun msg => ret (Errored msg)).

(** [fix_parser_code]: as for generation, the prompt is built before the
    [try]; the handler returns the code it was given. *)
Definition fix_parser_code (api_provider : Provider) (parser_code : string)
    (test_results : TestResult) (pdf_content : string) (csv_schema : CsvSchema)
    : M string :=
  n <- fresh ;;
  results_json <- call (lift_fallible (json_dumps_result env test_results)) ;;
  schema_json <- call (lift_fallible (json_dumps_schema env csv_schema)) ;;
  let error_analysis := repair_prompt results_json pdf_content schema_json parser_code in
  try_except
    (emit (EvRequest error_analysis) ;;;
     call (lift_fallible (llm env api_provider n error_analysis)))
    (fun _ => ret parser_code).

(** ** The loop *)

(** A point of a run of [run_agent_loop]: at the [while] test, after
    [return state], or after an exception has left the function (with the
    state object as the loop had mutated it by then). *)
Inductive Point : Type :=
| AtLoopHead (st : AgentState) (w : World)
| Finished (st : AgentState) (w : World)
| Crashed (e : exn) (st : AgentState) (w : World).

(** [state.test_results[-1]]. *)
Definition last_result (st : AgentState) : result TestResult :=
  match last (test_results st) with
  | Some r => Ok r
  | None => Raise (Exception "list index out of range")
  end.

(** Steps 1 and 2 of an iteration: analysis, then generation or repair. *)
Definition synthesize (api_provider : Provider) (st : AgentState) : M string :=
  emit (EvAttempt (attempt st) (max_attempts st)) ;;;
  pdf_content <- analyze_pdf_structure (pdf_path st) ;;
  csv_schema <- analyze_csv_schema (csv_path st) ;;
  if (attempt st =? 1)%Z
  then generate_parser_code api_provider pdf_content csv_schema (target_bank st)
  else
    previous <- call (last_result st) ;;
    fix_parser_code api_provider (parser_code st) previous pdf_content csv_schema.

(** One iteration of the [while] body. *)
Definition loop_body (api_provider : Provider) (st : AgentState) (w : World) : Point :=
  match synthesize api_provider st w with
  | (Raise e, w1) => Crashed e st w1
  | (Ok code, w1) =>
      let st1 := set_parser_code code st in
      match test_parser (parser_code st1) (pdf_path st1) (csv_path st1) w1 with
      | (Raise e, w2) => Crashed e st1 w2
      | (Ok test_result, w2) =>
          let st2 := append_test_result test_result st1 in
          if get_success test_result
          then Finished (set_success true st2) w2
          else AtLoopHead (set_attempt (attempt st2 + 1) st2) w2
      end
  end.

(** [while state.attempt <= state.max_attempts and not state.success]. *)
Definition loop_test (st : AgentState) : bool :=
  (attempt st <=? max_attempts st)%Z && negb (success st).

Definition step (api_provider : Provider) (p : Point) : Point :=
  match p with
  | AtLoopHead st w =>
      if loop_test st then loop_body api_provider st w else Finished st w
  | Finished _ _ | Crashed _ _ _ => p
  end.

Definition run (api_provider : Provider) (n : nat) (p : Point) : Point :=
  Nat.iter n (step api_provider) p.

(** The iterations left before the test fails on the counter alone. *)
Definition budget_left (st : AgentState) : nat :=
  Z.to_nat (max_attempts st + 1 - attempt st).

(** [run_agent_loop]: the loop run to its end (that this many steps reach
    the end is [run_agent_loop_terminates]). *)
Definition run_agent_loop (api_provider : Provider) (st : AgentState) (w : World)
    : Point :=
  run api_provider (S (budget_left st)) (AtLoopHead st w).

Definition point_state (p : Point) : AgentState :=
  match p with
  | AtLoopHead st _ | Finished st _ | Crashed _ st _ => st
  end.

Definition point_world (p : Point) : World :=
  match p with
  | AtLoopHead _ w | Finished _ w | Crashed _ _ w => w
  end.

Definition is_terminal (p : Point) : bool :=
  match p with
  | AtLoopHead _ _ => false
  | Finished _ _ | Crashed _ _ _ => true
  end.

Definition is_finished (p : Point) : bool :=
  match p with
  | Finished _ _ => true
  | _ => false
  end.

(** [save_parser] and the test file written by [main]. *)
Definition save_parser (bank_name : string) : M string :=
  let parser_file := "custom_parsers/" +:+ bank_name +:+ "_parser.py" in
  create_file "custom_parsers" ;;;
  create_file parser_file ;;;
  ret parser_file.

(** ** [main] *)

Record Args : Type := mkArgs {
  arg_target : string;
  arg_pdf : option string;
  arg_csv : option string;
  arg_provider : Provider
}.

(** How the process ends: the program's own [sys.exit(status)]; a normal
    return of [main]; an error nobody caught (a traceback); or an exception
    outside [Exception] that left the program, such as a [SystemExit]
    raised by generated code, which ends the process with the status that
    exception carries, not one the program chose. *)
Inductive Exit : Type :=
| Exited (status : Z)
| Returned
| Uncaught (e : exn)
| ExitRequested (msg : string).

Definition left_by (e : exn) : Exit :=
  match e with
  | Exception _ => Uncaught e
  | SystemExiting msg => ExitRequested msg
  end.

(** [if not args.x: args.x = default]. *)
Definition or_default (o : option string) (d : string) : string :=
  match o with
  | Some s => if String.eqb s "" then d else s
  | None => d
  end.

Definition path_exists (w : World) (p : string) : bool :=
  bool_decide (p ∈ fs w).

(** The paths [main] settles on: defaults, then the [.txt] stand-in for a
    missing document. *)
Definition default_pdf (target : string) : string :=
  "data/" +:+ target +:+ "/" +:+ target +:+ "_sample.pdf".

Definition default_csv (target : string) : string :=
  "data/" +:+ target +:+ "/" +:+ target +:+ "_sample.csv".

Definition resolved_pdf (args : Args) (w : World) : string :=
  let pdf := or_default (arg_pdf args) (default_pdf (arg_target args)) in
  if negb (path_exists w pdf) && path_exists w (pdf +:+ ".txt")
  then pdf +:+ ".txt" else pdf.

Definition resolved_csv (args : Args) : string :=
  or_default (arg_csv args) (default_csv (arg_target args)).

(** After a successful run: [save_parser], then the generated test file. *)
Definition deliver (target : string) : M unit :=
  save_parser target ;;;
  create_file "tests" ;;;
  create_file ("tests/test_" +:+ target +:+ "_parser.py").

Definition main (args : Args) (w : World) : Exit * World :=
  let pdf := resolved_pdf args w in
  let csv := resolved_csv args in
  if negb (path_exists w pdf) then (Exited 1, w)
  else if negb (path_exists w csv) then (Exited 1, w)
  else if negb (setup_llm (arg_provider args)) then (Exited 1, w)
  else
    let state := new_state (arg_target args) pdf csv in
    match run_agent_loop (arg_provider args) state w with
    | Finished final_state w' =>
        if success final_state
        then (Returned, snd (deliver (arg_target args) w'))
        else (Exited 1, w')
    | Crashed e _ w' => (left_by e, w')
    | AtLoopHead _ w' =>
        (* not reached: [run_agent_loop] ends in a terminal point *)
        (Uncaught (Exception "run_agent_loop did not return"), w')
    end.

(** The calls of one kind made so far. *)
Definition is_attempt (ev : Event) : bool :=
  match ev with EvAttempt _ _ => true | _ => false end.

Definition is_analyze_pdf (ev : Event) : bool :=
  match ev with EvAnalyzePdf _ => true | _ => false end.

Definition is_analyze_csv (ev : Event) : bool :=
  match ev with EvAnalyzeCsv _ => true | _ => false end.

Definition is_test (ev : Event) : bool :=
  match ev with EvTest _ => true | _ => false end.

Definition count_events (f : Event -> bool) (w : World) : nat :=
  length (List.filter f (trace w)).

End Agent.

(** The attempts started between a world and a later one, and the same
    for the two analyzers. *)
Definition attempts_since (w0 w : World) : nat :=
  count_events is_attempt w - count_events is_attempt w0.

Definition pdf_analyses_since (w0 w : World) : nat :=
  count_events is_analyze_pdf w - count_events is_analyze_pdf w0.

Definition csv_analyses_since (w0 w : World) : nat :=
  count_events is_analyze_csv w - count_events is_analyze_csv w0.


(** A state as [main] (or any caller using the dataclass defaults for the
    run fields) hands it to the loop. *)
Definition initial (st : AgentState) : Prop :=
  attempt st = 1 /\ test_results st = [] /\ success st = false.

Definition failing (r : TestResult) : Prop := get_success r = false.

(** What loading the candidate and calling its [parse] comes to. *)
Definition candidate_outcome (env : Env) (n : nat) (code pdf : string) : result PyObj :=
  match exec_module env n code with
  | Raise e => Raise e
  | Ok m =>
      match get_parse m with
      | Raise e => Raise e
      | Ok parse => parse pdf
      end
  end.

Definition is_system_exit {A} (r : result A) : bool :=
  match r with
  | Raise (SystemExiting _) => true
  | _ => false
  end.

Definition is_crashed (p : Point) : bool :=
  match p with
  | Crashed _ _ _ => true
  | _ => false
  end.

(** ** Invariants of a run

    [k] is the number of attempts started since the world [w0] in which the
    loop was entered. *)

Definition started (w0 : World) (k : nat) (w : World) : Prop :=
  count_events is_attempt w = (count_events is_attempt w0 + k)%nat /\
  count_events is_analyze_pdf w = (count_events is_analyze_pdf w0 + k)%nat /\
  count_events is_analyze_csv w = (count_events is_analyze_csv w0 + k)%nat.

Definition last_succeeds (st : AgentState) : Prop :=
  exists r, last (test_results st) = Some r /\ get_success r = true.

Definition loop_invariant (B : Z) (w0 : World) (p : Point) : Prop :=
  let st := point_state p in
  exists k : nat,
    started w0 k (point_world p) /\
    max_attempts st = B /\
    match p with
    | AtLoopHead _ _ =>
        success st = false /\ attempt st = Z.of_nat k + 1 /\
        length (test_results st) = k /\ Forall failing (test_results st) /\
        Z.of_nat k <= Z.max 0 B
    | Finished _ _ =>
        (success st = true /\ attempt st = Z.of_nat k /\
         length (test_results st) = k /\ last_succeeds st /\
         1 <= Z.of_nat k <= B)
        \/
        (success st = false /\ attempt st = Z.of_nat k + 1 /\
         length (test_results st) = k /\ Forall failing (test_results st) /\
         B < attempt st /\ Z.of_nat k <= Z.max 0 B)
    | Crashed _ _ _ =>
        success st = false /\ attempt st = Z.of_nat k /\
        S (length (test_results st)) = k /\ Forall failing (test_results st) /\
        1 <= Z.of_nat k <= B
    end.

(** The files on disk once the temporary parser file has been written and
    loaded. *)
Definition loaded_fs (env : Env) (n : nat) (files : gset string) : gset string :=
  if writes_bytecode env n (parser_file_name env n)
  then {[ "__pycache__" ]} ∪ {[ bytecode_file env n ]}
       ∪ ({[ parser_file_name env n ]} ∪ files)
  else {[ parser_file_name env n ]} ∪ files.


(** ** The verification policy in the specification's words

    Section 4.4: execution failure, then shapes, then column-name
    sequences, then cells, stopping at the first that fails and recording
    its kind and detail. *)
Inductive SpecDiagnostic : Type :=
| spec_success
| execution_error (text : string)
| shape_mismatch (produced expected : nat * nat)
| schema_mismatch (produced expected : list string)
| data_mismatch.

Definition shape_eqb (a b : nat * nat) : bool :=
  Nat.eqb (fst a) (fst b) && Nat.eqb (snd a) (snd b).

(** A cell as step 4 looks at it: its value with its type, or the null of
    its column. *)
Inductive Cell : Type :=
| NullCell
| IntCell (z : Z)
| FloatCell (f : spec_float)
| BoolCell (b : bool)
| TextCell (s : string).

Definition text_cell (o : option string) : Cell :=
  match o with
  | Some s => TextCell s
  | None => NullCell
  end.

Definition float_cell (f : spec_float) : Cell :=
  if sf_is_nan f then NullCell else FloatCell f.

Definition cells (d : ColumnData) : list Cell :=
  match d with
  | Int64 xs => map IntCell xs
  | Float64 xs => map float_cell xs
  | BoolArr xs => map BoolCell xs
  | ObjectArr xs => map text_cell xs
  | StrArr xs => map text_cell xs
  end.

(** Exact match of two cells: the same type and the same value, or two
    nulls. *)
Definition cell_eqb (a b : Cell) : bool :=
  match a, b with
  | NullCell, NullCell => true
  | IntCell x, IntCell y => Z.eqb x y
  | FloatCell x, FloatCell y => SFeqb x y
  | BoolCell x, BoolCell y => Bool.eqb x y
  | TextCell s, TextCell t => String.eqb s t
  | _, _ => false
  end.

Definition spec_cells_equal (t expected : DataFrame) : bool :=
  all2 (fun a b => all2 cell_eqb (cells (col_data a)) (cells (col_data b)))
    (df_cols t) (df_cols expected).

Definition spec_verify (produced : fallible DataFrame) (expected : DataFrame)
    : SpecDiagnostic :=
  match produced with
  | Failure text => execution_error text
  | Success t =>
      if negb (shape_eqb (shape t) (shape expected))
      then shape_mismatch (shape t) (shape expected)
      else if negb (columns_eqb (columns t) (columns expected))
      then schema_mismatch (columns t) (columns expected)
      else if negb (spec_cells_equal t expected)
      then data_mismatch
      else spec_success
  end.

(** ** Sample environments *)

Definition start_world : World := mkWorld 0 ∅ [].

(** Nothing works: the inputs cannot be read, the provider is over quota,
    and whatever is loaded has no [parse]. *)
Definition failing_env : Env :=
  mkEnv true true (fun _ => Some "k")
    (fun _ _ => Failure "cannot read")
    (fun _ _ => Failure "cannot parse")
    (fun _ => Success "{}")
    (fun _ => Success "{}")
    (fun _ _ _ => Failure "quota exceeded")
    (fun _ => "20240101_000000")
    (fun _ _ => Success tt)
    (fun _ _ => Success tt)
    "cpython-311"
    (fun _ _ => true)
    (fun _ _ => Ok (mkModule None)).

(** The provider answers, every candidate's [parse] returns [produced], and
    the expected table reads as [expected]. *)
Definition env_returning (produced : PyObj) (expected : DataFrame) : Env :=
  mkEnv true true (fun _ => Some "k")
    (fun _ _ => Success "statement text")
    (fun _ _ => Success expected)
    (fun _ => Success "{}")
    (fun _ => Success "{}")
    (fun _ _ _ => Success "def parse(pdf_path): ...")
    (fun _ => "20240101_000000")
    (fun _ _ => Success tt)
    (fun _ _ => Success tt)
    "cpython-311"
    (fun _ _ => true)
    (fun _ _ => Ok (mkModule (Some (fun _ => Ok produced)))).

(** Every candidate's [parse] raises [e]. *)
Definition env_raising (e : exn) : Env :=
  mkEnv true true (fun _ => Some "k")
    (fun _ _ => Success "statement text")
    (fun _ _ => Success empty_frame)
    (fun _ => Success "{}")
    (fun _ => Success "{}")
    (fun _ _ _ => Success "def parse(pdf_path): ...")
    (fun _ => "20240101_000000")
    (fun _ _ => Success tt)
    (fun _ _ => Success tt)
    "cpython-311"
    (fun _ _ => true)
    (fun _ _ => Ok (mkModule (Some (fun _ => Raise e)))).

Definition statement_table : DataFrame :=
  mkDataFrame (range_index 2)
    [mkColumn "Date" (ObjectArr [Some "01-08-2024"; Some "02-08-2024"]);
     mkColumn "Description" (ObjectArr [Some "Salary"; None]);
     mkColumn "Debit" (Float64 [S754_nan; S754_finite false 5 2]);
     mkColumn "Balance" (Int64 [1000; 980])].

(** The provider's first answer has no [parse]; asked to repair it, the
    provider answers a parser that returns the expected table. *)
Definition env_repairing : Env :=
  mkEnv true true (fun _ => Some "k")
    (fun _ _ => Success "statement text")
    (fun _ _ => Success statement_table)
    (fun _ => Success "{}")
    (fun _ => Success "{}")
    (fun _ _ prompt =>
       if String.prefix (nl +:+ "Previous parser failed") prompt
       then Success "good" else Success "bad")
    (fun _ => "20240101_000000")
    (fun _ _ => Success tt)
    (fun _ _ => Success tt)
    "cpython-311"
    (fun _ _ => true)
    (fun _ code =>
       if String.eqb code "good"
       then Ok (mkModule (Some (fun _ => Ok (PyFrame statement_table))))
       else Ok (mkModule None)).

Definition two_columns (second : string) : DataFrame :=
  mkDataFrame (range_index 1)
    [mkColumn "Date" (ObjectArr [Some "01-08-2024"]);
     mkColumn second (ObjectArr [Some "Salary"])].

(** The rows of [statement_table] under the labels 1 and 2 (a frame whose
    first row was dropped without [reset_index]), and the same rows with
    the text columns held in the [str] dtype. *)
Definition relabelled_table : DataFrame :=
  mkDataFrame [IntLabel 1; IntLabel 2] (df_cols statement_table).

Definition str_table : DataFrame :=
  mkDataFrame (range_index 2)
    [mkColumn "Date" (StrArr [Some "01-08-2024"; Some "02-08-2024"]);
     mkColumn "Description" (StrArr [Some "Salary"; None]);
     mkColumn "Debit" (Float64 [S754_nan; S754_finite false 5 2]);
     mkColumn "Balance" (Int64 [1000; 980])].

Definition sample_state : AgentState :=
  new_state "icici" "data/icici/icici_sample.pdf.txt" "data/icici/icici_sample.csv".

Definition sample_args : Args := mkArgs "icici" None None Google.

(** ** The stand-alone checks

    [test_parser.py] (the script run as [python test_parser.py <bank>]) and
    [tests/test_icici_parser.py] (the pytest file).  Both load a saved parser
    from [custom_parsers] and compare what it returns with the sample CSV.
    What they print is left out; what they return, raise and exit with is
    modelled. *)

Module TestScript.

Section Script.

Variable env : Env.

(** [__import__('custom_parsers.<bank>_parser', fromlist=['parse'])]: the
    module found under that name, or what importing it raises. *)
Variable import_module : string -> result Module.

Definition module_name (bank_name : string) : string :=
  "custom_parsers." +:+ bank_name +:+ "_parser".

Definition sample_pdf (bank_name : string) : string :=
  "data/" +:+ bank_name +:+ "/icic_sample.pdf.txt".

Definition sample_csv (bank_name : string) : string :=
  "data/" +:+ bank_name +:+ "/icic_sample.csv".

(** [getattr(parser_module, 'parse')]. *)
Definition getattr_parse (name : string) (m : Module)
    : result (string -> result PyObj) :=
  match mod_parse m with
  | Some f => Ok f
  | None => Raise (Exception ("module '" +:+ name +:+ "' has no attribute 'parse'"))
  end.

(** [test_parser(bank_name)] of [test_parser.py]. *)
Definition test_parser (bank_name : string) : M bool :=
  n <- fresh ;;
  try_except
    (parser_module <- call (import_module (module_name bank_name)) ;;
     parse_func <- call (getattr_parse (module_name bank_name) parser_module) ;;
     result_df <- call (parse_func (sample_pdf bank_name)) ;;
     expected_df <- call (lift_fallible (read_csv env n (sample_csv bank_name))) ;;
     is_equal <- call (py_equals result_df expected_df) ;;
     if is_equal then ret true else ret false)
    (fun _ => ret false).

(** [sys.argv[1] if len(sys.argv) > 1 else "icici"]. *)
Definition bank_argument (argv : list string) : string :=
  match argv with
  | _ :: bank_name :: _ => bank_name
  | _ => "icici"
  end.

(** The [__main__] block: [sys.exit(0 if success else 1)]. *)
Definition script_main (argv : list string) (w : World) : Exit * World :=
  match test_parser (bank_argument argv) w with
  | (Ok success, w') => (Exited (if success then 0 else 1), w')
  | (Raise e, w') => (left_by e, w')
  end.

(** [test_icici_parser()] of [tests/test_icici_parser.py], for the [parse]
    that the file imported from [custom_parsers.icici_parser]. *)
Definition test_icici_parser (parse : string -> result PyObj) : M unit :=
  n <- fresh ;;
  result_df <- call (parse "data/icici/icic_sample.pdf.txt") ;;
  expected_df <- call (lift_fallible (read_csv env n "data/icici/icic_sample.csv")) ;;
  is_equal <- call (py_equals result_df expected_df) ;;
  if is_equal then ret tt
  else raise (Exception "Parser output does not match expected CSV").

End Script.

End TestScript.

(** ** Vocabulary of the further properties *)

(** [needle] occurs in [text]. *)
Definition occurs_in (needle text : string) : Prop :=
  exists before after, text = before +:+ needle +:+ after.

(** The fields the loop is given and never writes. *)
Definition same_inputs (st0 st : AgentState) : Prop :=
  target_bank st = target_bank st0 /\ pdf_path st = pdf_path st0 /\
  csv_path st = csv_path st0 /\ max_attempts st = max_attempts st0 /\
  errors st = errors st0.

(** A path [test_parser] can write: the temporary parser file of a test,
    its bytecode cache, or the cache directory. *)
Definition is_temp_file (env : Env) (path : string) : Prop :=
  (exists n, path = parser_file_name env n) \/
  (exists n, path = bytecode_file env n) \/
  path = "__pycache__".

(** The last call recorded in a world. *)
Definition last_event (w : World) : option Event := last (trace w).

(** Further sample environments. *)

(** The libraries are installed but no API key is set. *)
Definition env_without_key : Env :=
  mkEnv true true (fun _ => None)
    (fun _ _ => Success "statement text")
    (fun _ _ => Success statement_table)
    (fun _ => Success "{}")
    (fun _ => Success "{}")
    (fun _ _ _ => Success "good")
    (fun _ => "20240101_000000")
    (fun _ _ => Success tt)
    (fun _ _ => Success tt)
    "cpython-311"
    (fun _ _ => true)
    (fun _ _ => Ok (mkModule (Some (fun _ => Ok (PyFrame statement_table))))).

(** The expected CSV reads well, and [json.dumps] rejects the schema built
    from it (it accepts the error dictionary). *)
Definition env_unserialisable : Env :=
  mkEnv true true (fun _ => Some "k")
    (fun _ _ => Success "statement text")
    (fun _ _ => Success statement_table)
    (fun schema =>
       match schema with
       | Schema _ _ _ _ => Failure "Object of type dtype is not JSON serializable"
       | SchemaError _ => Success "{}"
       end)
    (fun _ => Success "{}")
    (fun _ _ _ => Success "good")
    (fun _ => "20240101_000000")
    (fun _ _ => Success tt)
    (fun _ _ => Success tt)
    "cpython-311"
    (fun _ _ => true)
    (fun _ _ => Ok (mkModule (Some (fun _ => Ok (PyFrame statement_table))))).

(** The expected CSV cannot be read.  [json.dumps] rejects the schema of a
    frame (it holds dtype objects) and accepts the error dictionary and
    the diagnostics; the provider is over quota; a candidate whose text is
    [raise SystemExit(3)] leaves through that exit when loaded, any other
    loads as a module without [parse]. *)
Definition env_unreadable : Env :=
  mkEnv true true (fun _ => Some "k")
    (fun _ _ => Success "statement text")
    (fun _ _ => Failure "No columns to parse from file")
    (fun schema =>
       match schema with
       | Schema _ _ _ _ => Failure "Object of type dtype is not JSON serializable"
       | SchemaError _ => Success "{}"
       end)
    (fun _ => Success "{}")
    (fun _ _ _ => Failure "quota exceeded")
    (fun _ => "20240101_000000")
    (fun _ _ => Success tt)
    (fun _ _ => Success tt)
    "cpython-311"
    (fun _ _ => true)
    (fun _ code =>
       if String.eqb code "raise SystemExit(3)"
       then Raise (SystemExiting "3")
       else Ok (mkModule None)).

(** A world in which the sample inputs of [icici] exist (the document as
    its [.txt] stand-in). *)
Definition sample_world : World :=
  mkWorld 0 {[ "data/icici/icici_sample.pdf.txt"; "data/icici/icici_sample.csv" ]} [].

(** The saved parser that [custom_parsers] holds in the samples. *)
Definition import_saved (name : string) : result Module :=
  if String.eqb name "custom_parsers.icici_parser"
  then Ok (mkModule (Some (fun _ => Ok (PyFrame statement_table))))
  else Raise (Exception ("No module named '" +:+ name +:+ "'")).

(** ** Facts about the table comparison *)

Lemma all2_refl {A} (eqb : A -> A -> bool) (xs : list A) :
  (forall x, eqb x x = true) -> all2 eqb xs xs = true.
Proof.
  intros Hrefl. induction xs as [|x xs IH]; simpl.
  - reflexivity.
  - now rewrite Hrefl, IH.
Qed.

Lemma all2_length {A} (eqb : A -> A -> bool) (xs ys : list A) :
  all2 eqb xs ys = true -> length xs = length ys.
Proof.
  revert ys. induction xs as [|x xs IH]; intros [|y ys]; simpl; try discriminate.
  - reflexivity.
  - intros H. apply andb_prop in H as [_ H]. f_equal. now apply IH.
Qed.

Lemma all2_eq {A} (eqb : A -> A -> bool) (xs ys : list A) :
  (forall x y, eqb x y = true -> x = y) -> all2 eqb xs ys = true -> xs = ys.
Proof.
  intros Heq. revert ys.
  induction xs as [|x xs IH]; intros [|y ys]; simpl; try discriminate.
  - reflexivity.
  - intros H. apply andb_prop in H as [Hx H].
    f_equal; [now apply Heq | now apply IH].
Qed.

Lemma all2_map {A B} (f : A -> B) (eqa : A -> A -> bool) (eqb : B -> B -> bool)
    (xs ys : list A) :
  (forall x y, eqa x y = true -> eqb (f x) (f y) = true) ->
  all2 eqa xs ys = true -> all2 eqb (map f xs) (map f ys) = true.
Proof.
  intros Himp. revert ys.
  induction xs as [|x xs IH]; intros [|y ys]; simpl; try discriminate.
  - reflexivity.
  - intros H. apply andb_prop in H as [Hx H].
    rewrite (Himp _ _ Hx). now apply IH.
Qed.

Lemma string_eqb_refl (s : string) : String.eqb s s = true.
Proof. apply String.eqb_refl. Qed.

Lemma string_eqb_true (s t : string) : String.eqb s t = true -> s = t.
Proof. apply String.eqb_eq. Qed.

Lemma SFeqb_refl (x : spec_float) : sf_is_nan x = false -> SFeqb x x = true.
Proof.
  unfold SFeqb, SFcompare.
  destruct x as [s|s| |s m e]; simpl; try discriminate; intros _.
  - reflexivity.
  - now destruct s.
  - rewrite Z.compare_refl.
    assert (Hm : PosDef.Pos.compare_cont Eq m m = Eq)
      by apply Pos.compare_cont_refl.
    rewrite Hm. now destruct s.
Qed.

Lemma float_same_refl (x : spec_float) : float_same x x = true.
Proof.
  unfold float_same. destruct (sf_is_nan x) eqn:Hn.
  - now rewrite orb_true_r.
  - now rewrite SFeqb_refl.
Qed.

Lemma object_same_refl (x : option string) : object_same x x = true.
Proof. destruct x; simpl; [apply string_eqb_refl | reflexivity]. Qed.

Lemma data_equals_refl (d : ColumnData) : data_equals d d = true.
Proof.
  destruct d; simpl; apply all2_refl.
  - apply Z.eqb_refl.
  - apply float_same_refl.
  - now intros [].
  - apply object_same_refl.
  - apply object_same_refl.
Qed.

Lemma label_eqb_refl (a : Label) : label_eqb a a = true.
Proof. destruct a; simpl; [apply Z.eqb_refl | apply string_eqb_refl]. Qed.

Lemma column_equals_refl (c : Column) : column_equals c c = true.
Proof.
  unfold column_equals. now rewrite string_eqb_refl, data_equals_refl.
Qed.

Lemma equals_refl (df : DataFrame) : equals df df = true.
Proof.
  unfold equals. rewrite (all2_refl label_eqb) by apply label_eqb_refl. simpl.
  apply all2_refl, column_equals_refl.
Qed.

Lemma equals_shape (a b : DataFrame) : equals a b = true -> shape a = shape b.
Proof.
  unfold equals, shape, df_rows. intros H. apply andb_prop in H as [Hr Hc].
  apply all2_length in Hr. apply all2_length in Hc. congruence.
Qed.

Lemma equals_columns (a b : DataFrame) :
  equals a b = true -> columns_eqb (columns a) (columns b) = true.
Proof.
  unfold equals, columns_eqb, columns. intros H. apply andb_prop in H as [_ Hc].
  revert Hc. apply all2_map. intros x y Hxy.
  unfold column_equals in Hxy. now apply andb_prop in Hxy as [Hn _].
Qed.

Lemma columns_eqb_eq (xs ys : list string) :
  columns_eqb xs ys = true <-> xs = ys.
Proof.
  split.
  - apply all2_eq, string_eqb_true.
  - intros ->. apply all2_refl, string_eqb_refl.
Qed.

(** ** Facts about the operations *)

Ltac unfold_monad :=
  unfold bind, try_except, call, ret, raise, fresh, emit, create_file, os_remove,
    lift_fallible in *; simpl in *.

Ltac case_oracles :=
  repeat match goal with
  | |- context [match ?x with _ => _ end] =>
      lazymatch x with
      | context [match _ with _ => _ end] => fail
      | _ => destruct x eqn:?; simpl in *
      end
  end.

Lemma analyze_pdf_structure_total (env : Env) (path : string) (w : World) :
  exists content,
    analyze_pdf_structure env path w =
    (Ok content, mkWorld (S (clock w)) (fs w) (trace w ++ [EvAnalyzePdf path])).
Proof.
  unfold analyze_pdf_structure. unfold_monad.
  destruct (ends_with path ".txt"); [|eauto].
  destruct (read_text env (clock w) path); eauto.
Qed.

Lemma analyze_csv_schema_total (env : Env) (path : string) (w : World) :
  exists schema,
    analyze_csv_schema env path w =
    (Ok schema, mkWorld (S (clock w)) (fs w) (trace w ++ [EvAnalyzeCsv path])).
Proof.
  unfold analyze_csv_schema. unfold_monad.
  destruct (read_csv env (clock w) path); eauto.
Qed.

Lemma open_write_success (env : Env) (n : nat) (path : string) :
  open_write env n path = Success tt ->
  open_file env n path = Success tt /\ write_file env n path = Success tt.
Proof.
  unfold open_write. destruct (open_file env n path) as [[]|]; [|discriminate].
  intros ->. now split.
Qed.

(** [test_parser] as a decision tree over what the environment answers. *)
Lemma test_parser_cases (env : Env) (code pdf csv : string) (w : World) :
  test_parser env code pdf csv w =
  let n := clock w in
  let file := parser_file_name env n in
  let tr := trace w ++ [EvTest code] in
  let unwritten := mkWorld (S n) (fs w) tr in
  let written := mkWorld (S n) ({[file]} ∪ fs w) tr in
  let loaded := mkWorld (S n) (loaded_fs env n (fs w)) tr in
  let removed := mkWorld (S n) (loaded_fs env n (fs w) ∖ {[file]}) tr in
  match open_file env n file with
  | Failure msg => (Ok (Errored msg), unwritten)
  | Success _ =>
      match write_file env n file with
      | Failure msg => (Ok (Errored msg), written)
      | Success _ =>
          match candidate_outcome env n code pdf with
          | Raise (Exception msg) => (Ok (Errored msg), loaded)
          | Raise (SystemExiting msg) => (Raise (SystemExiting msg), loaded)
          | Ok produced =>
              match read_csv env n csv with
              | Failure msg => (Ok (Errored msg), loaded)
              | Success expected =>
                  match produced with
                  | PyOther ty =>
                      (Ok (Errored ("'" +:+ ty +:+ "' object has no attribute '"
                                    +:+ "equals" +:+ "'")), loaded)
                  | PySeries _ =>
                      (Ok (Errored ("'" +:+ "Series"
                                    +:+ "' object has no attribute '"
                                    +:+ "columns" +:+ "'")), removed)
                  | PyFrame r =>
                      (Ok (Compared (equals r expected) (shape r) (shape expected)
                             (columns_eqb (columns r) (columns expected))
                             (equals r expected)), removed)
                  end
              end
          end
      end
  end.
Proof.
  unfold test_parser, candidate_outcome, get_parse, py_equals,
    py_shape_and_columns, no_attribute, write_bytecode, loaded_fs.
  unfold_monad.
  case_oracles; reflexivity.
Qed.

Lemma test_parser_trace (env : Env) (code pdf csv : string) (w : World) :
  trace (snd (test_parser env code pdf csv w)) = trace w ++ [EvTest code].
Proof.
  rewrite test_parser_cases. simpl. case_oracles; reflexivity.
Qed.

Lemma test_parser_clock (env : Env) (code pdf csv : string) (w : World) :
  clock (snd (test_parser env code pdf csv w)) = S (clock w).
Proof.
  rewrite test_parser_cases. simpl. case_oracles; reflexivity.
Qed.

(** Unless the candidate leaves through an exception outside [Exception],
    [test_parser] returns a dictionary. *)
Lemma test_parser_returns (env : Env) (code pdf csv : string) (w : World) :
  is_system_exit (candidate_outcome env (clock w) code pdf) = false ->
  exists r w', test_parser env code pdf csv w = (Ok r, w').
Proof.
  intros Hexit. rewrite test_parser_cases. simpl.
  destruct (open_file _ _ _); [|eauto].
  destruct (write_file _ _ _); [|eauto].
  destruct (candidate_outcome _ _ _ _) as [produced|[msg|msg]]; simpl in Hexit;
    try discriminate; [|eauto].
  destruct (read_csv _ _ _); [|eauto].
  destruct produced; eauto.
Qed.

(** The temporary file is on disk after loading, and off it after
    [os.remove]. *)
Lemma loaded_fs_file (env : Env) (n : nat) (files : gset string) :
  parser_file_name env n ∈ loaded_fs env n files /\
  parser_file_name env n ∉ loaded_fs env n files ∖ {[ parser_file_name env n ]}.
Proof.
  unfold loaded_fs. split.
  - destruct (writes_bytecode _ _ _);
      repeat (rewrite elem_of_union || rewrite elem_of_singleton); auto.
  - intros Hin. apply elem_of_difference in Hin as [_ Hnot].
    apply Hnot. now apply elem_of_singleton.
Qed.

Lemma generate_parser_code_cases (env : Env) (prov : Provider)
    (pdf_content : string) (schema : CsvSchema) (bank : string) (w : World) :
  generate_parser_code env prov pdf_content schema bank w =
  let n := clock w in
  match json_dumps_schema env schema with
  | Failure msg => (Raise (Exception msg), mkWorld (S n) (fs w) (trace w))
  | Success schema_json =>
      let prompt := generation_prompt bank pdf_content schema_json in
      let w' := mkWorld (S n) (fs w) (trace w ++ [EvRequest prompt]) in
      match llm env prov n prompt with
      | Success code => (Ok code, w')
      | Failure msg => (Ok (placeholder msg), w')
      end
  end.
Proof.
  unfold generate_parser_code. unfold_monad. case_oracles; reflexivity.
Qed.

Lemma fix_parser_code_cases (env : Env) (prov : Provider) (code : string)
    (previous : TestResult) (pdf_content : string) (schema : CsvSchema) (w : World) :
  fix_parser_code env prov code previous pdf_content schema w =
  let n := clock w in
  let w0 := mkWorld (S n) (fs w) (trace w) in
  match json_dumps_result env previous with
  | Failure msg => (Raise (Exception msg), w0)
  | Success results_json =>
      match json_dumps_schema env schema with
      | Failure msg => (Raise (Exception msg), w0)
      | Success schema_json =>
          let prompt := repair_prompt results_json pdf_content schema_json code in
          let w' := mkWorld (S n) (fs w) (trace w ++ [EvRequest prompt]) in
          match llm env prov n prompt with
          | Success fixed => (Ok fixed, w')
          | Failure _ => (Ok code, w')
          end
      end
  end.
Proof.
  unfold fix_parser_code. unfold_monad. case_oracles; reflexivity.
Qed.

Ltac count_trace :=
  unfold count_events; simpl;
  repeat (rewrite List.filter_app || rewrite List.length_app); simpl; lia.

Ltac trace_shape :=
  first
    [ exists []; split;
      [simpl; repeat rewrite <- List.app_assoc; reflexivity | now left]
    | eexists [EvRequest _]; split;
      [simpl; repeat rewrite <- List.app_assoc; reflexivity | right; eauto] ].

(** Steps 1 and 2 of an iteration start one attempt and call each analyzer
    once, whatever happens next; at most one request goes to the provider. *)
Lemma synthesize_trace (env : Env) (prov : Provider) (st : AgentState) (w : World) :
  exists requests,
    trace (snd (synthesize env prov st w)) =
      trace w ++ [EvAttempt (attempt st) (max_attempts st);
                  EvAnalyzePdf (pdf_path st); EvAnalyzeCsv (csv_path st)]
              ++ requests /\
    (requests = [] \/ exists prompt, requests = [EvRequest prompt]).
Proof.
  unfold synthesize. unfold bind at 1. unfold emit at 1.
  unfold bind at 1.
  destruct (analyze_pdf_structure_total env (pdf_path st)
              (mkWorld (clock w) (fs w)
                 (trace w ++ [EvAttempt (attempt st) (max_attempts st)])))
    as [content ->].
  unfold bind at 1.
  match goal with
  | |- context [analyze_csv_schema env ?p ?w'] =>
      destruct (analyze_csv_schema_total env p w') as [schema ->]
  end.
  destruct (attempt st =? 1)%Z.
  - rewrite generate_parser_code_cases. simpl.
    case_oracles; trace_shape.
  - unfold bind, call, last_result.
    destruct (last (test_results st)).
    + rewrite fix_parser_code_cases. simpl.
      case_oracles; trace_shape.
    + trace_shape.
Qed.

Lemma synthesize_counts (env : Env) (prov : Provider) (st : AgentState) (w : World) :
  count_events is_attempt (snd (synthesize env prov st w))
    = S (count_events is_attempt w) /\
  count_events is_analyze_pdf (snd (synthesize env prov st w))
    = S (count_events is_analyze_pdf w) /\
  count_events is_analyze_csv (snd (synthesize env prov st w))
    = S (count_events is_analyze_csv w) /\
  count_events is_test (snd (synthesize env prov st w))
    = count_events is_test w.
Proof.
  destruct (synthesize_trace env prov st w) as (requests & Htr & Hreq).
  unfold count_events. rewrite Htr.
  destruct Hreq as [-> | [prompt ->]];
    repeat (rewrite List.filter_app || rewrite List.length_app); simpl;
    repeat split; lia.
Qed.

Lemma test_parser_counts (env : Env) (code pdf csv : string) (w : World) :
  let w1 := snd (test_parser env code pdf csv w) in
  count_events is_attempt w1 = count_events is_attempt w /\
  count_events is_analyze_pdf w1 = count_events is_analyze_pdf w /\
  count_events is_analyze_csv w1 = count_events is_analyze_csv w /\
  count_events is_test w1 = S (count_events is_test w).
Proof.
  simpl. unfold count_events. rewrite test_parser_trace.
  repeat (rewrite List.filter_app || rewrite List.length_app). simpl.
  repeat split; lia.
Qed.

(** ** Facts about the loop *)

(** What one iteration does to the state object and to the counts. *)
Lemma loop_body_outcome (env : Env) (prov : Provider) (st : AgentState) (w : World) :
  started w 1 (point_world (loop_body env prov st w)) /\
  match loop_body env prov st w with
  | Crashed _ st' _ => st' = st \/ exists code, st' = set_parser_code code st
  | Finished st' _ =>
      exists code r, get_success r = true /\
        st' = set_success true (append_test_result r (set_parser_code code st))
  | AtLoopHead st' _ =>
      exists code r, get_success r = false /\
        st' = set_attempt (attempt st + 1)
                (append_test_result r (set_parser_code code st))
  end.
Proof.
  unfold loop_body, started.
  pose proof (synthesize_counts env prov st w) as (Ha & Hp & Hc & _).
  destruct (synthesize env prov st w) as [[code|e] w1]; simpl in *.
  - pose proof (test_parser_counts env code (pdf_path st) (csv_path st) w1)
      as (Ha' & Hp' & Hc' & _).
    destruct (test_parser env code (pdf_path st) (csv_path st) w1)
      as [[r|e] w2]; simpl in *.
    + destruct (get_success r) eqn:Hr; simpl;
        (split; [repeat split; lia | eauto]).
    + split; [repeat split; lia | eauto].
  - split; [repeat split; lia | eauto].
Qed.

Lemma step_terminal (env : Env) (prov : Provider) (p : Point) :
  is_terminal p = true -> step env prov p = p.
Proof. destruct p; simpl; [discriminate | reflexivity | reflexivity]. Qed.

Lemma run_terminal (env : Env) (prov : Provider) (n : nat) (p : Point) :
  is_terminal p = true -> run env prov n p = p.
Proof.
  intros Hp. induction n as [|n IH]; [reflexivity|].
  change (run env prov (S n) p) with (step env prov (run env prov n p)).
  rewrite IH. now apply step_terminal.
Qed.

Lemma run_S (env : Env) (prov : Provider) (n : nat) (p : Point) :
  run env prov (S n) p = step env prov (run env prov n p).
Proof. reflexivity. Qed.

Lemma run_step (env : Env) (prov : Provider) (n : nat) (p : Point) :
  run env prov (S n) p = run env prov n (step env prov p).
Proof.
  induction n as [|n IH]; [reflexivity|].
  change (run env prov (S (S n)) p) with (step env prov (run env prov (S n) p)).
  rewrite IH. reflexivity.
Qed.

Lemma run_add (env : Env) (prov : Provider) (n m : nat) (p : Point) :
  run env prov (n + m) p = run env prov m (run env prov n p).
Proof.
  revert p. induction n as [|n IH]; intros p; [reflexivity|].
  change (S n + m)%nat with (S (n + m)). now rewrite !run_step, IH.
Qed.

Lemma loop_test_true (st : AgentState) :
  loop_test st = true -> attempt st <= max_attempts st /\ success st = false.
Proof.
  unfold loop_test. intros H. apply andb_prop in H as [Ha Hs].
  apply Z.leb_le in Ha. apply negb_true_iff in Hs. now split.
Qed.

Lemma loop_test_false (st : AgentState) :
  loop_test st = false -> success st = false -> max_attempts st < attempt st.
Proof.
  unfold loop_test. intros H Hs. rewrite Hs in H. simpl in H.
  rewrite andb_true_r in H. apply Z.leb_gt in H. lia.
Qed.

(** The loop returns or raises: the steps counted by [run_agent_loop] reach
    the end of the [while]. *)
Lemma run_reaches_end (env : Env) (prov : Provider) (m : nat) :
  forall st w, (budget_left st <= m)%nat ->
    is_terminal (run env prov (S m) (AtLoopHead st w)) = true.
Proof.
  induction m as [|m IH]; intros st w Hm.
  - simpl. destruct (loop_test st) eqn:Ht; [|reflexivity].
    apply loop_test_true in Ht as [Ha _]. unfold budget_left in Hm. lia.
  - rewrite run_step. simpl step.
    destruct (loop_test st) eqn:Ht.
    + apply loop_test_true in Ht as [Ha _].
      pose proof (loop_body_outcome env prov st w) as [_ Hout].
      destruct (loop_body env prov st w) as [st' w'| |] eqn:Hbody.
      * apply IH. destruct Hout as (code & r & _ & ->).
        unfold budget_left in *. simpl. lia.
      * now rewrite run_terminal.
      * now rewrite run_terminal.
    + now rewrite run_terminal.
Qed.

Lemma run_agent_loop_terminates (env : Env) (prov : Provider)
    (st : AgentState) (w : World) :
  is_terminal (run_agent_loop env prov st w) = true.
Proof. unfold run_agent_loop. now apply run_reaches_end. Qed.

(** Running longer than [run_agent_loop] does changes nothing. *)
Lemma run_agent_loop_stable (env : Env) (prov : Provider)
    (st : AgentState) (w : World) (n : nat) :
  (S (budget_left st) <= n)%nat ->
  run env prov n (AtLoopHead st w) = run_agent_loop env prov st w.
Proof.
  intros Hn. replace n with (S (budget_left st) + (n - S (budget_left st)))%nat by lia.
  rewrite run_add. apply run_terminal. apply run_agent_loop_terminates.
Qed.

Lemma started_add (w0 w1 w2 : World) (k j : nat) :
  started w0 k w1 -> started w1 j w2 -> started w0 (k + j) w2.
Proof. unfold started. intros (? & ? & ?) (? & ? & ?). repeat split; lia. Qed.

Lemma started_refl (w : World) : started w 0 w.
Proof. unfold started. repeat split; lia. Qed.

Lemma invariant_start (st0 : AgentState) (w0 : World) :
  initial st0 -> loop_invariant (max_attempts st0) w0 (AtLoopHead st0 w0).
Proof.
  intros (Ha & Hr & Hs). exists 0%nat. simpl.
  split; [apply started_refl|]. split; [reflexivity|].
  rewrite Ha, Hr, Hs. simpl. repeat split; try constructor; lia.
Qed.

Lemma Forall_failing_snoc (rs : list TestResult) (r : TestResult) :
  Forall failing rs -> get_success r = false -> Forall failing (rs ++ [r]).
Proof.
  intros Hrs Hr. apply Forall_app. split; [assumption|].
  constructor; [exact Hr | constructor].
Qed.

Lemma invariant_step (env : Env) (prov : Provider) (B : Z) (w0 : World) (p : Point) :
  loop_invariant B w0 p -> loop_invariant B w0 (step env prov p).
Proof.
  destruct p as [st w| |]; simpl step; [|trivial|trivial].
  intros (k & Hk & HB & Hs & Ha & Hl & Hf & Hle). simpl in *.
  destruct (loop_test st) eqn:Ht.
  - apply loop_test_true in Ht as [Hbound _].
    pose proof (loop_body_outcome env prov st w) as [Hone Hout].
    pose proof (started_add _ _ _ _ _ Hk Hone) as Hk'.
    exists (k + 1)%nat. split; [exact Hk'|].
    destruct (loop_body env prov st w) as [st' w'|st' w'|e st' w']; simpl in *.
    + destruct Hout as (code & r & Hr & ->). simpl.
      split; [assumption|]. rewrite List.length_app. simpl.
      repeat split; try lia; try assumption.
      now apply Forall_failing_snoc.
    + destruct Hout as (code & r & Hr & ->). simpl.
      split; [assumption|]. left. rewrite List.length_app. simpl.
      repeat split; try lia.
      exists r. simpl. split; [apply last_snoc | assumption].
    + assert (Hsame : max_attempts st' = max_attempts st /\
                      success st' = success st /\ attempt st' = attempt st /\
                      test_results st' = test_results st)
        by (destruct Hout as [->|[code ->]]; simpl; auto).
      destruct Hsame as (-> & -> & -> & ->).
      repeat split; try lia; assumption.
  - exists k. split; [assumption|]. split; [assumption|]. right.
    pose proof (loop_test_false st Ht Hs).
    simpl. repeat split; try lia; assumption.
Qed.

Lemma invariant_run (env : Env) (prov : Provider) (st0 : AgentState) (w0 : World)
    (n : nat) :
  initial st0 ->
  loop_invariant (max_attempts st0) w0 (run env prov n (AtLoopHead st0 w0)).
Proof.
  intros Hinit. induction n as [|n IH].
  - now apply invariant_start.
  - rewrite run_S. now apply invariant_step.
Qed.

(** ** The executor and verifier: [test_parser] *)

Lemma shape_eqb_eq (a b : nat * nat) : shape_eqb a b = true <-> a = b.
Proof.
  destruct a as [a1 a2], b as [b1 b2]. unfold shape_eqb. simpl.
  rewrite andb_true_iff, !Nat.eqb_eq. split.
  - intros [-> ->]. reflexivity.
  - intros [= -> ->]. now split.
Qed.

Lemma all2_impl {A} (p q : A -> A -> bool) (xs ys : list A) :
  (forall x y, p x y = true -> q x y = true) ->
  all2 p xs ys = true -> all2 q xs ys = true.
Proof.
  intros Himp. revert ys.
  induction xs as [|x xs IH]; intros [|y ys]; simpl; try discriminate.
  - reflexivity.
  - intros H. apply andb_prop in H as [Hx H].
    rewrite (Himp _ _ Hx). now apply IH.
Qed.

Lemma float_same_cells (x y : spec_float) :
  float_same x y = true -> cell_eqb (float_cell x) (float_cell y) = true.
Proof.
  unfold float_same, float_cell.
  destruct x as [sx|sx| |sx mx ex], y as [sy|sy| |sy my ey]; simpl;
    try discriminate; try reflexivity; intros H; now rewrite orb_false_r in H.
Qed.

Lemma object_same_cells (x y : option string) :
  object_same x y = true -> cell_eqb (text_cell x) (text_cell y) = true.
Proof. destruct x, y; simpl; auto; discriminate. Qed.

Lemma data_equals_cells (a b : ColumnData) :
  data_equals a b = true -> all2 cell_eqb (cells a) (cells b) = true.
Proof.
  destruct a, b; simpl; try discriminate; apply all2_map; auto.
  - apply float_same_cells.
  - apply object_same_cells.
  - apply object_same_cells.
Qed.

(** When [equals] accepts, the four ordered checks all pass. *)
Lemma equals_passes_spec_checks (r e : DataFrame) :
  equals r e = true -> spec_verify (Success r) e = spec_success.
Proof.
  unfold spec_verify. intros H.
  apply equals_shape in H as Hs. apply shape_eqb_eq in Hs. rewrite Hs. simpl.
  rewrite (equals_columns _ _ H). simpl.
  unfold equals in H. apply andb_prop in H as [_ Hc].
  assert (Hcells : spec_cells_equal r e = true).
  { unfold spec_cells_equal. revert Hc. apply all2_impl.
    intros x y Hxy. unfold column_equals in Hxy.
    apply andb_prop in Hxy as [_ Hd]. now apply data_equals_cells. }
  now rewrite Hcells.
Qed.

(** C9. The verifier's equality is reflexive: when the candidate's [parse]
    returns a table [T] and the expected CSV reads as the same [T] (same
    row labels, columns and dtypes, nulls in the same cells), [test_parser]
    reports success, with matching shapes, columns and data. *)
Theorem verify_reflexive (env : Env) (code pdf csv : string) (w : World)
    (T : DataFrame) :
  open_write env (clock w) (parser_file_name env (clock w)) = Success tt ->
  candidate_outcome env (clock w) code pdf = Ok (PyFrame T) ->
  read_csv env (clock w) csv = Success T ->
  equals T T = true /\
  fst (test_parser env code pdf csv w)
    = Ok (Compared true (shape T) (shape T) true true) /\
  (forall r, fst (test_parser env code pdf csv w) = Ok r -> get_success r = true).
Proof.
  intros Hopen Hcand Hcsv.
  apply open_write_success in Hopen as [Hopen Hwrite].
  assert (Hres : fst (test_parser env code pdf csv w)
                 = Ok (Compared true (shape T) (shape T) true true)).
  { rewrite test_parser_cases. simpl. rewrite Hopen, Hwrite, Hcand, Hcsv. simpl.
    rewrite equals_refl.
    assert (Hcols : columns_eqb (columns T) (columns T) = true)
      by now apply columns_eqb_eq.
    now rewrite Hcols. }
  split; [apply equals_refl|]. split; [exact Hres|].
  intros r Hr. rewrite Hres in Hr. injection Hr as <-. reflexivity.
Qed.

Lemma verify_reflexive_witness :
  fst (test_parser (env_returning (PyFrame statement_table) statement_table)
         "def parse(pdf_path): ..." "doc.txt" "expected.csv" start_world)
  = Ok (Compared true (2%nat, 4%nat) (2%nat, 4%nat) true true).
Proof.
  apply (verify_reflexive
           (env_returning (PyFrame statement_table) statement_table)
           "def parse(pdf_path): ..." "doc.txt" "expected.csv" start_world
           statement_table); reflexivity.
Defined.

(** C10. When loading the candidate or calling its [parse] raises, the
    temporary parser file written at the start of [test_parser] is still on
    disk when [test_parser] is left; the file is removed on the path that
    reaches the comparison. *)
Theorem temp_file_left_behind (env : Env) (code pdf csv : string) (w : World) :
  let file := parser_file_name env (clock w) in
  let w' := snd (test_parser env code pdf csv w) in
  (forall e,
     open_write env (clock w) file = Success tt ->
     candidate_outcome env (clock w) code pdf = Raise e ->
     file ∈ fs w') /\
  (forall s rs es c d,
     fst (test_parser env code pdf csv w) = Ok (Compared s rs es c d) ->
     file ∉ fs w').
Proof.
  intros file w'. subst file w'.
  pose proof (loaded_fs_file env (clock w) (fs w)) as [Hin Hout].
  split.
  - intros e Hopen Hcand.
    apply open_write_success in Hopen as [Hopen Hwrite].
    rewrite test_parser_cases. simpl.
    rewrite Hopen, Hwrite, Hcand. now destruct e.
  - intros s rs es c d. rewrite test_parser_cases. simpl.
    destruct (open_file _ _ _); simpl; [|discriminate].
    destruct (write_file _ _ _); simpl; [|discriminate].
    destruct (candidate_outcome _ _ _ _) as [produced|[msg|msg]]; simpl;
      try discriminate.
    destruct (read_csv _ _ _); simpl; [|discriminate].
    destruct produced; simpl; try discriminate.
    intros _. exact Hout.
Qed.

Lemma temp_file_left_behind_witness :
  parser_file_name failing_env 0
    ∈ fs (snd (test_parser failing_env "import nothing" "doc.txt" "expected.csv"
                 start_world)).
Proof.
  apply (proj1 (temp_file_left_behind failing_env "import nothing" "doc.txt"
                  "expected.csv" start_world)
           (Exception "module 'temp_parser' has no attribute 'parse'"));
    reflexivity.
Defined.

(** A renamed column (scenario B of the specification), with two different
    new names: [test_parser] answers the same dictionary for both, which holds
    two shapes and three booleans, while the ordered policy records the
    produced column list, different in the two cases. *)
Lemma diagnostic_omits_kind_and_columns :
  let expected := two_columns "Description" in
  let run_with produced :=
    fst (test_parser (env_returning (PyFrame produced) expected)
           "def parse(pdf_path): ..." "doc.txt" "expected.csv" start_world) in
  run_with (two_columns "Desc")
    = Ok (Compared false (1%nat, 2%nat) (1%nat, 2%nat) false false) /\
  run_with (two_columns "Desc") = run_with (two_columns "Details") /\
  spec_verify (Success (two_columns "Desc")) expected
    = schema_mismatch ["Date"; "Desc"] ["Date"; "Description"] /\
  spec_verify (Success (two_columns "Desc")) expected
    <> spec_verify (Success (two_columns "Details")) expected.
Proof.
  simpl. repeat split; try reflexivity. discriminate.
Qed.

(** The whole-table comparison is stricter than the four ordered checks:
    with the same shape, the same column names and the same cells, a frame
    whose row labels differ from the expected ones, or whose text columns
    have another dtype, passes the four checks and fails [equals]; the
    dictionary then says that the columns match and the data does not. *)
Lemma equals_stricter_than_ordered_checks :
  let run_with produced :=
    fst (test_parser (env_returning (PyFrame produced) statement_table)
           "def parse(pdf_path): ..." "doc.txt" "expected.csv" start_world) in
  spec_verify (Success relabelled_table) statement_table = spec_success /\
  equals relabelled_table statement_table = false /\
  run_with relabelled_table
    = Ok (Compared false (2%nat, 4%nat) (2%nat, 4%nat) true false) /\
  spec_verify (Success str_table) statement_table = spec_success /\
  equals str_table statement_table = false /\
  run_with str_table
    = Ok (Compared false (2%nat, 4%nat) (2%nat, 4%nat) true false).
Proof. vm_compute. repeat split; reflexivity. Qed.

(** C2, as the code has it.  [test_parser] makes one whole-table comparison
    and reports no failure kind.  When the temporary file is written: an
    error raised while loading or running the candidate gives the
    dictionary with [error]; when [parse] returns a [DataFrame] and the
    expected CSV reads, the dictionary holds the verdict of [equals], both
    shapes, the boolean result of the position-wise comparison of the
    column-name lists (the lists are not recorded) and the verdict again as
    [data_match]; when [parse] returns a [Series] the dictionary is again
    the one with [error].  A verdict of success implies that the four
    ordered checks of the specification all pass, so a shape or
    column-name mismatch makes the verdict a failure. *)
Theorem test_parser_report (env : Env) (code pdf csv : string) (w : World) :
  open_write env (clock w) (parser_file_name env (clock w)) = Success tt ->
  (forall msg,
     candidate_outcome env (clock w) code pdf = Raise (Exception msg) ->
     fst (test_parser env code pdf csv w) = Ok (Errored msg)) /\
  (forall r e,
     candidate_outcome env (clock w) code pdf = Ok (PyFrame r) ->
     read_csv env (clock w) csv = Success e ->
     fst (test_parser env code pdf csv w)
       = Ok (Compared (equals r e) (shape r) (shape e)
               (columns_eqb (columns r) (columns e)) (equals r e)) /\
     (equals r e = true -> spec_verify (Success r) e = spec_success) /\
     (columns_eqb (columns r) (columns e) = true <-> columns r = columns e) /\
     (shape r <> shape e -> equals r e = false) /\
     (columns r <> columns e -> equals r e = false)) /\
  (forall values e,
     candidate_outcome env (clock w) code pdf = Ok (PySeries values) ->
     read_csv env (clock w) csv = Success e ->
     fst (test_parser env code pdf csv w)
       = Ok (Errored "'Series' object has no attribute 'columns'")).
Proof.
  intros Hopen. apply open_write_success in Hopen as [Hopen Hwrite].
  split; [|split].
  - intros msg Hcand. rewrite test_parser_cases. simpl.
    now rewrite Hopen, Hwrite, Hcand.
  - intros r e Hcand Hcsv. split; [|split; [|split; [|split]]].
    + rewrite test_parser_cases. simpl. now rewrite Hopen, Hwrite, Hcand, Hcsv.
    + apply equals_passes_spec_checks.
    + apply columns_eqb_eq.
    + intros Hne. destruct (equals r e) eqn:He; [|reflexivity].
      exfalso. apply Hne. now apply equals_shape.
    + intros Hne. destruct (equals r e) eqn:He; [|reflexivity].
      exfalso. apply Hne. apply columns_eqb_eq. now apply equals_columns.
  - intros values e Hcand Hcsv. rewrite test_parser_cases. simpl.
    now rewrite Hopen, Hwrite, Hcand, Hcsv.
Qed.

Lemma test_parser_report_witness :
  fst (test_parser (env_returning (PyFrame (two_columns "Desc"))
                      (two_columns "Description"))
         "def parse(pdf_path): ..." "doc.txt" "expected.csv" start_world)
  = Ok (Compared false (1%nat, 2%nat) (1%nat, 2%nat) false false).
Proof.
  apply (proj1 (proj1 (proj2 (test_parser_report
                  (env_returning (PyFrame (two_columns "Desc"))
                     (two_columns "Description"))
                  "def parse(pdf_path): ..." "doc.txt" "expected.csv" start_world
                  eq_refl))
           (two_columns "Desc") (two_columns "Description") eq_refl eq_refl)).
Defined.

(** A module without [parse] and a module whose [parse] raises an error
    with the same text get the same dictionary: there is no failure kind
    that tells them apart. *)
Lemma missing_entry_point_not_distinct :
  let message := "module 'temp_parser' has no attribute 'parse'" in
  fst (test_parser failing_env "x = 1" "doc.txt" "expected.csv" start_world)
    = Ok (Errored message) /\
  fst (test_parser (env_raising (Exception message))
         "def parse(pdf_path): raise ..." "doc.txt" "expected.csv" start_world)
    = Ok (Errored message) /\
  exec_module failing_env 0 "x = 1" = Ok (mkModule None).
Proof. simpl. repeat split; reflexivity. Qed.

(** C5, as the code has it.  [test_parser] hands every error (every
    exception that derives from [Exception]) of loading or running the
    candidate back as the dictionary with [success] false and the error
    text; a module without [parse] is one of these errors, reported with
    the text of its [AttributeError] and nothing else.  Only an exception
    outside [Exception] leaves [test_parser]. *)
Theorem test_parser_captures_errors (env : Env) (code pdf csv : string) (w : World) :
  (is_system_exit (candidate_outcome env (clock w) code pdf) = false ->
   exists r w', test_parser env code pdf csv w = (Ok r, w')) /\
  (forall msg,
     open_write env (clock w) (parser_file_name env (clock w)) = Success tt ->
     candidate_outcome env (clock w) code pdf = Raise (Exception msg) ->
     fst (test_parser env code pdf csv w) = Ok (Errored msg) /\
     get_success (Errored msg) = false) /\
  (forall m,
     exec_module env (clock w) code = Ok m -> mod_parse m = None ->
     candidate_outcome env (clock w) code pdf
       = Raise (Exception "module 'temp_parser' has no attribute 'parse'")) /\
  (forall msg,
     open_write env (clock w) (parser_file_name env (clock w)) = Success tt ->
     candidate_outcome env (clock w) code pdf = Raise (SystemExiting msg) ->
     fst (test_parser env code pdf csv w) = Raise (SystemExiting msg)).
Proof.
  split; [|split; [|split]].
  - apply test_parser_returns.
  - intros msg Hopen Hcand. split; [|reflexivity].
    apply open_write_success in Hopen as [Hopen Hwrite].
    rewrite test_parser_cases. simpl. now rewrite Hopen, Hwrite, Hcand.
  - intros m Hm Hnone. unfold candidate_outcome, get_parse.
    now rewrite Hm, Hnone.
  - intros msg Hopen Hcand.
    apply open_write_success in Hopen as [Hopen Hwrite].
    rewrite test_parser_cases. simpl. now rewrite Hopen, Hwrite, Hcand.
Qed.

Lemma test_parser_captures_errors_witness :
  exists r w',
    test_parser (env_raising (Exception "boom")) "def parse(pdf_path): raise ..."
      "doc.txt" "expected.csv" start_world = (Ok r, w').
Proof.
  apply (proj1 (test_parser_captures_errors (env_raising (Exception "boom"))
                  "def parse(pdf_path): raise ..." "doc.txt" "expected.csv"
                  start_world)).
  reflexivity.
Defined.

(** ** The retry budget *)

Lemma started_attempts (w0 w : World) (k : nat) :
  started w0 k w ->
  attempts_since w0 w = k /\ pdf_analyses_since w0 w = k /\
  csv_analyses_since w0 w = k.
Proof.
  unfold started, attempts_since, pdf_analyses_since, csv_analyses_since.
  intros (Ha & Hp & Hc). repeat split; lia.
Qed.

Lemma last_succeeds_not_all_failing (st : AgentState) :
  last_succeeds st -> Forall failing (test_results st) -> False.
Proof.
  intros (r & Hlast & Hr) Hall.
  apply last_Some in Hlast as [rs Hrs]. rewrite Hrs in Hall.
  apply Forall_app in Hall as [_ Hall].
  apply Forall_cons in Hall as [Hfail _].
  unfold failing in Hfail. congruence.
Qed.

(** C1. With a retry budget [B >= 1] in [max_attempts], at every point of a
    run at most [B] attempts have been started and [test_results] has at
    most [B] entries; the loop ends; and when it ends without an exception
    and with every diagnostic reporting failure, it has returned with
    [success] false after exactly [B] attempts and [B] diagnostics. *)
Theorem run_agent_loop_within_budget (env : Env) (prov : Provider)
    (st0 : AgentState) (w0 : World) (B : Z) :
  1 <= B -> initial st0 -> max_attempts st0 = B ->
  (forall n,
     Z.of_nat (attempts_since w0
                 (point_world (run env prov n (AtLoopHead st0 w0)))) <= B /\
     Z.of_nat (length (test_results
                 (point_state (run env prov n (AtLoopHead st0 w0))))) <= B) /\
  is_terminal (run_agent_loop env prov st0 w0) = true /\
  (is_crashed (run_agent_loop env prov st0 w0) = false ->
   Forall failing (test_results (point_state (run_agent_loop env prov st0 w0))) ->
   is_finished (run_agent_loop env prov st0 w0) = true /\
   success (point_state (run_agent_loop env prov st0 w0)) = false /\
   Z.of_nat (length (test_results
               (point_state (run_agent_loop env prov st0 w0)))) = B /\
   Z.of_nat (attempts_since w0
               (point_world (run_agent_loop env prov st0 w0))) = B).
Proof.
  intros HB Hinit Hmax. split; [|split].
  - intros n. pose proof (invariant_run env prov st0 w0 n Hinit) as Hinv.
    rewrite Hmax in Hinv.
    destruct Hinv as (k & Hk & _ & Hcase).
    apply started_attempts in Hk as (-> & _ & _).
    destruct (run env prov n (AtLoopHead st0 w0)) as [st w|st w|e st w];
      simpl in *.
    + destruct Hcase as (_ & _ & Hl & _ & Hle). lia.
    + destruct Hcase as [(_ & _ & Hl & _ & Hle)|(_ & _ & Hl & _ & _ & Hle)]; lia.
    + destruct Hcase as (_ & _ & Hl & _ & Hle). lia.
  - apply run_agent_loop_terminates.
  - pose proof (run_agent_loop_terminates env prov st0 w0) as Hterm.
    pose proof (invariant_run env prov st0 w0 (S (budget_left st0)) Hinit) as Hinv.
    rewrite Hmax in Hinv. fold (run_agent_loop env prov st0 w0) in Hinv.
    destruct Hinv as (k & Hk & _ & Hcase).
    apply started_attempts in Hk as (-> & _ & _).
    destruct (run_agent_loop env prov st0 w0) as [st w|st w|e st w];
      simpl in *; try discriminate.
    intros _ Hall.
    destruct Hcase as [(_ & _ & _ & Hlast & _)|(Hs & Ha & Hl & _ & Hgt & Hle)].
    + exfalso. now apply (last_succeeds_not_all_failing st).
    + repeat split; try assumption; lia.
Qed.

Lemma run_agent_loop_within_budget_witness :
  is_terminal (run_agent_loop failing_env Google sample_state start_world) = true /\
  Z.of_nat (length (test_results (point_state
      (run_agent_loop failing_env Google sample_state start_world)))) = 3.
Proof.
  pose proof (run_agent_loop_within_budget failing_env Google sample_state
                start_world 3 ltac:(lia)
                (conj eq_refl (conj eq_refl eq_refl)) eq_refl)
    as (_ & Hterm & Hfail).
  split; [exact Hterm|].
  apply Hfail; [reflexivity|].
  vm_compute. repeat constructor.
Defined.

(** ** The attempt counter *)






(** ** Success and the last diagnostic *)

(** C7. At every point of a run from a fresh state, [success] is true if
    and only if the last diagnostic of [test_results] reports success (in
    particular whenever at least one attempt has completed); and once a
    diagnostic reports success the loop has returned: no further step
    changes anything, so no further attempt is made. *)
Theorem success_iff_last_result (env : Env) (prov : Provider)
    (st0 : AgentState) (w0 : World) :
  initial st0 ->
  forall n,
    let p := run env prov n (AtLoopHead st0 w0) in
    (success (point_state p) = true <-> last_succeeds (point_state p)) /\
    (last_succeeds (point_state p) ->
     is_finished p = true /\
     forall m, run env prov m p = p /\
               attempts_since w0 (point_world (run env prov m p))
               = attempts_since w0 (point_world p)).
Proof.
  intros Hinit n p. subst p.
  pose proof (invariant_run env prov st0 w0 n Hinit) as Hinv.
  destruct Hinv as (k & _ & _ & Hcase).
  destruct (run env prov n (AtLoopHead st0 w0)) as [st w|st w|e st w];
    simpl in *.
  - destruct Hcase as (Hs & _ & _ & Hall & _). split.
    + split; [congruence|].
      intros Hlast. exfalso. now apply (last_succeeds_not_all_failing st).
    + intros Hlast. exfalso. now apply (last_succeeds_not_all_failing st).
  - assert (Hstable : forall m, run env prov m (Finished st w) = Finished st w)
      by (intros m; now apply run_terminal).
    destruct Hcase as [(Hs & _ & _ & Hlast & _)|(Hs & _ & _ & Hall & _)].
    + split; [now split|]. intros _. split; [reflexivity|].
      intros m. now rewrite Hstable.
    + split.
      * split; [congruence|].
        intros Hlast. exfalso. now apply (last_succeeds_not_all_failing st).
      * intros _. split; [reflexivity|]. intros m. now rewrite Hstable.
  - destruct Hcase as (Hs & _ & _ & Hall & _). split.
    + split; [congruence|].
      intros Hlast. exfalso. now apply (last_succeeds_not_all_failing st).
    + intros Hlast. exfalso. now apply (last_succeeds_not_all_failing st).
Qed.

Lemma success_iff_last_result_witness :
  last_succeeds
    (point_state
       (run (env_returning (PyFrame statement_table) statement_table) Google 1
          (AtLoopHead sample_state start_world))).
Proof.
  apply (proj1 (proj1 (success_iff_last_result
                  (env_returning (PyFrame statement_table) statement_table)
                  Google sample_state start_world
                  (conj eq_refl (conj eq_refl eq_refl)) 1%nat))).
  vm_compute. reflexivity.
Defined.

(** ** Analysis of the inputs *)

(** A run of three failed attempts reads the document three times and the
    expected table three times. *)
Lemma analysis_repeated_each_attempt :
  let w := point_world
             (run_agent_loop failing_env Google sample_state start_world) in
  attempts_since start_world w = 3%nat /\
  pdf_analyses_since start_world w = 3%nat /\
  csv_analyses_since start_world w = 3%nat /\
  pdf_analyses_since start_world w <> 1%nat.
Proof.
  vm_compute. repeat split; try reflexivity. discriminate.
Qed.

Lemma started_step (env : Env) (prov : Provider) (w0 : World) (p : Point) :
  (exists k, started w0 k (point_world p)) ->
  exists k, started w0 k (point_world (step env prov p)).
Proof.
  intros [k Hk]. destruct p as [st w| |]; simpl step; eauto.
  destruct (loop_test st); eauto.
  pose proof (loop_body_outcome env prov st w) as [Hone _].
  exists (k + 1)%nat. now apply (started_add w0 w).
Qed.

(** C3, as the code has it.  The analysis is made once per attempt, not
    once per run: at every point of a run, from any state, each of
    [analyze_pdf_structure] and [analyze_csv_schema] has been called exactly
    as many times as attempts have been started; nothing is kept from one
    iteration to the next. *)
Theorem analysis_once_per_attempt (env : Env) (prov : Provider)
    (st0 : AgentState) (w0 : World) (n : nat) :
  pdf_analyses_since w0 (point_world (run env prov n (AtLoopHead st0 w0)))
    = attempts_since w0 (point_world (run env prov n (AtLoopHead st0 w0))) /\
  csv_analyses_since w0 (point_world (run env prov n (AtLoopHead st0 w0)))
    = attempts_since w0 (point_world (run env prov n (AtLoopHead st0 w0))).
Proof.
  assert (Hk : exists k,
             started w0 k (point_world (run env prov n (AtLoopHead st0 w0)))).
  { induction n as [|n IH].
    - exists 0%nat. apply started_refl.
    - rewrite run_S. now apply started_step. }
  destruct Hk as [k Hk]. apply started_attempts in Hk as (-> & -> & ->).
  now split.
Qed.

(** ** Failure of the text-generation service *)


(** Steps 1 and 2 of an iteration, after the two analyses. *)
Lemma synthesize_unfold (env : Env) (prov : Provider) (st : AgentState) (w : World) :
  exists content schema,
    synthesize env prov st w =
    (if (attempt st =? 1)%Z
     then generate_parser_code env prov content schema (target_bank st)
     else
       previous <- call (last_result st) ;;
       fix_parser_code env prov (parser_code st) previous content schema)
      (mkWorld (S (S (clock w))) (fs w)
         (((trace w ++ [EvAttempt (attempt st) (max_attempts st)])
             ++ [EvAnalyzePdf (pdf_path st)]) ++ [EvAnalyzeCsv (csv_path st)])).
Proof.
  unfold synthesize. unfold bind at 1. unfold emit at 1.
  unfold bind at 1.
  destruct (analyze_pdf_structure_total env (pdf_path st)
              (mkWorld (clock w) (fs w)
                 (trace w ++ [EvAttempt (attempt st) (max_attempts st)])))
    as [content ->].
  unfold bind at 1.
  match goal with
  | |- context [analyze_csv_schema env ?p ?w'] =>
      destruct (analyze_csv_schema_total env p w') as [schema ->]
  end.
  exists content, schema. reflexivity.
Qed.



Lemma synthesize_with_analysis (env : Env) (prov : Provider) (st : AgentState)
    (w : World) :
  let wa := mkWorld (clock w) (fs w)
              (trace w ++ [EvAttempt (attempt st) (max_attempts st)]) in
  let wb := mkWorld (S (clock w)) (fs w)
              (trace wa ++ [EvAnalyzePdf (pdf_path st)]) in
  let wc := mkWorld (S (S (clock w))) (fs w)
              (trace wb ++ [EvAnalyzeCsv (csv_path st)]) in
  exists content schema,
    fst (analyze_pdf_structure env (pdf_path st) wa) = Ok content /\
    fst (analyze_csv_schema env (csv_path st) wb) = Ok schema /\
    synthesize env prov st w =
    (if (attempt st =? 1)%Z
     then generate_parser_code env prov content schema (target_bank st)
     else
       previous <- call (last_result st) ;;
       fix_parser_code env prov (parser_code st) previous content schema) wc.
Proof.
  intros wa wb wc. subst wa wb wc. simpl.
  unfold synthesize. unfold bind at 1. unfold emit at 1.
  unfold bind at 1.
  destruct (analyze_pdf_structure_total env (pdf_path st)
              (mkWorld (clock w) (fs w)
                 (trace w ++ [EvAttempt (attempt st) (max_attempts st)])))
    as [content Hc].
  rewrite Hc. unfold bind at 1. simpl.
  destruct (analyze_csv_schema_total env (csv_path st)
              (mkWorld (S (clock w)) (fs w)
                 ((trace w ++ [EvAttempt (attempt st) (max_attempts st)])
                    ++ [EvAnalyzePdf (pdf_path st)])))
    as [schema Hs].
  rewrite Hs. exists content, schema. simpl. repeat split; reflexivity.
Qed.

(** ** What ends a run *)










(** A run that fails once and succeeds on the repaired candidate: two
    attempts, two diagnostics, the counter left at 2, the candidate kept. *)
Example repaired_run :
  let p := run_agent_loop env_repairing Google sample_state start_world in
  is_finished p = true /\
  success (point_state p) = true /\
  attempt (point_state p) = 2 /\
  parser_code (point_state p) = "good" /\
  test_results (point_state p)
    = [Errored "module 'temp_parser' has no attribute 'parse'";
       Compared true (2%nat, 4%nat) (2%nat, 4%nat) true true] /\
  attempts_since start_world (point_world p) = 2%nat.
Proof. vm_compute. repeat split; reflexivity. Qed.

(** * Further properties of the code *)

(** ** The analyzers *)

(** X1. [analyze_pdf_structure] never raises and leaves the file system alone.
    A path that does not end in [.txt] is never opened: the answer is the
    fixed sentence.  A [.txt] path gives the text read, or, when reading
    fails, the error text behind the marker [Error reading PDF: ]. *)
Theorem analyze_pdf_structure_never_raises (env : Env) (path : string) (w : World) :
  (exists content, fst (analyze_pdf_structure env path w) = Ok content) /\
  fs (snd (analyze_pdf_structure env path w)) = fs w /\
  (ends_with path ".txt" = false ->
   fst (analyze_pdf_structure env path w)
     = Ok "PDF content would be extracted here") /\
  (ends_with path ".txt" = true ->
   forall text, read_text env (clock w) path = Success text ->
   fst (analyze_pdf_structure env path w) = Ok text) /\
  (ends_with path ".txt" = true ->
   forall msg, read_text env (clock w) path = Failure msg ->
   fst (analyze_pdf_structure env path w) = Ok ("Error reading PDF: " +:+ msg)).
Proof.
  destruct (analyze_pdf_structure_total env path w) as [content Htotal].
  split; [exists content; now rewrite Htotal|].
  split; [now rewrite Htotal|].
  unfold analyze_pdf_structure. unfold_monad.
  repeat split.
  - intros ->. reflexivity.
  - intros -> text ->. reflexivity.
  - intros -> msg ->. reflexivity.
Qed.

Lemma analyze_pdf_structure_never_raises_witness :
  fst (analyze_pdf_structure failing_env "statement.txt" start_world)
    = Ok "Error reading PDF: cannot read" /\
  fst (analyze_pdf_structure failing_env "statement.pdf" start_world)
    = Ok "PDF content would be extracted here".
Proof.
  pose proof (analyze_pdf_structure_never_raises failing_env "statement.txt"
                start_world) as (_ & _ & _ & _ & Hfail).
  pose proof (analyze_pdf_structure_never_raises failing_env "statement.pdf"
                start_world) as (_ & _ & Hpdf & _).
  split.
  - apply Hfail; reflexivity.
  - apply Hpdf; reflexivity.
Defined.

Lemma col_len_head (n : nat) (d : ColumnData) :
  col_len (head_data n d) = Nat.min n (col_len d).
Proof. destruct d; simpl; apply length_take. Qed.

Lemma head_well_formed (n : nat) (df : DataFrame) :
  well_formed df -> well_formed (head n df).
Proof.
  unfold well_formed, head, df_rows. simpl. intros Hwf.
  apply Forall_map. eapply Forall_impl; [exact Hwf|].
  intros c Hc. simpl. rewrite col_len_head, Hc, length_take. reflexivity.
Qed.

Lemma head_columns (n : nat) (df : DataFrame) : columns (head n df) = columns df.
Proof.
  unfold columns, head. simpl. rewrite map_map. reflexivity.
Qed.

(** X2. [analyze_csv_schema] never raises.  When the CSV cannot be read the
    schema is the dictionary with the error text.  Otherwise it lists the
    frame's columns in order, one dtype per column under the same names,
    the row count, and a sample that has the same columns, at most three
    rows (all of them when the frame has three or fewer), and is well
    formed when the frame is. *)
Theorem analyze_csv_schema_summary (env : Env) (path : string) (w : World) :
  (exists schema, fst (analyze_csv_schema env path w) = Ok schema) /\
  (forall msg, read_csv env (clock w) path = Failure msg ->
   fst (analyze_csv_schema env path w) = Ok (SchemaError msg)) /\
  (forall df, read_csv env (clock w) path = Success df ->
   exists sample,
     fst (analyze_csv_schema env path w)
       = Ok (Schema (columns df) (dtypes df) sample (df_rows df)) /\
     map fst (dtypes df) = columns df /\
     columns sample = columns df /\
     df_rows sample = Nat.min 3 (df_rows df) /\
     (well_formed df -> well_formed sample)).
Proof.
  destruct (analyze_csv_schema_total env path w) as [schema Htotal].
  split; [exists schema; now rewrite Htotal|].
  unfold analyze_csv_schema. unfold_monad. split.
  - intros msg ->. reflexivity.
  - intros df ->. exists (head 3 df).
    split; [reflexivity|]. split.
    + unfold dtypes, columns. rewrite map_map. reflexivity.
    + split; [apply head_columns|]. split; [|apply head_well_formed].
      unfold head, df_rows. cbn [df_index]. exact (length_take (df_index df) 3).
Qed.

Lemma analyze_csv_schema_summary_witness :
  fst (analyze_csv_schema failing_env "expected.csv" start_world)
    = Ok (SchemaError "cannot parse").
Proof.
  apply (proj1 (proj2 (analyze_csv_schema_summary failing_env "expected.csv"
                         start_world))).
  reflexivity.
Defined.

(** ** [main] *)

Lemma deliver_trace (target : string) (w : World) :
  trace (snd (deliver target w)) = trace w.
Proof. reflexivity. Qed.

Lemma deliver_files (target : string) (w : World) :
  "custom_parsers/" +:+ target +:+ "_parser.py" ∈ fs (snd (deliver target w)) /\
  "tests/test_" +:+ target +:+ "_parser.py" ∈ fs (snd (deliver target w)).
Proof.
  unfold deliver, save_parser. unfold_monad. split; set_solver.
Qed.

(** X3. The agent is built only when the provider's library is installed and
    its API key is set to a non-empty value; otherwise [main] ends with
    status 1 before the loop, whether or not the input files exist: the
    world is unchanged and no attempt is made. *)
Theorem missing_api_key_aborts (env : Env) (args : Args) (w : World) :
  (setup_llm env Google = true <->
   google_available env = true /\
   exists key, getenv env "GOOGLE_API_KEY" = Some key /\ key <> "") /\
  (setup_llm env Groq = true <->
   groq_available env = true /\
   exists key, getenv env "GROQ_API_KEY" = Some key /\ key <> "") /\
  (setup_llm env (arg_provider args) = false ->
   main env args w = (Exited 1, w)).
Proof.
  assert (Hkey : forall name,
            has_key env name = true <->
            exists key, getenv env name = Some key /\ key <> "").
  { intros name. unfold has_key. destruct (getenv env name) as [key|].
    - rewrite negb_true_iff. split.
      + intros Hne. exists key. split; [reflexivity|].
        intros ->. now rewrite string_eqb_refl in Hne.
      + intros (key' & [= <-] & Hne). apply String.eqb_neq. exact Hne.
    - split; [discriminate|]. intros (key & Hsome & _). discriminate. }
  split; [|split].
  - unfold setup_llm. rewrite andb_true_iff, Hkey. reflexivity.
  - unfold setup_llm. rewrite andb_true_iff, Hkey. reflexivity.
  - intros Hsetup. unfold main. rewrite Hsetup. simpl.
    destruct (path_exists w (resolved_pdf args w)); simpl; [|reflexivity].
    destruct (path_exists w (resolved_csv args)); reflexivity.
Qed.

Lemma missing_api_key_aborts_witness :
  main env_without_key sample_args sample_world = (Exited 1, sample_world).
Proof.
  apply (proj2 (proj2 (missing_api_key_aborts env_without_key sample_args
                         sample_world))).
  reflexivity.
Defined.

Lemma success_iff_last_state (env : Env) (prov : Provider) (st0 : AgentState)
    (w0 : World) (n : nat) :
  initial st0 ->
  success (point_state (run env prov n (AtLoopHead st0 w0))) = true ->
  last_succeeds (point_state (run env prov n (AtLoopHead st0 w0))).
Proof.
  intros Hinit.
  pose proof (invariant_run env prov st0 w0 n Hinit) as (k & _ & _ & Hcase).
  destruct (run env prov n (AtLoopHead st0 w0)) as [st w|st w|e st w];
    simpl in *.
  - destruct Hcase as (Hs & _). congruence.
  - destruct Hcase as [(_ & _ & _ & Hlast & _)|(Hs & _)]; [auto|congruence].
  - destruct Hcase as (Hs & _). congruence.
Qed.

(** After an iteration that returns or goes on, the last recorded call is
    the test of the code now stored in the state. *)
Lemma loop_body_last_event (env : Env) (prov : Provider) (st : AgentState) (w : World) :
  is_crashed (loop_body env prov st w) = false ->
  last_event (point_world (loop_body env prov st w))
    = Some (EvTest (parser_code (point_state (loop_body env prov st w)))).
Proof.
  unfold loop_body, last_event.
  destruct (synthesize env prov st w) as [[code|e] w1]; simpl; [|discriminate].
  pose proof (test_parser_trace env code (pdf_path st) (csv_path st) w1) as Htr.
  destruct (test_parser env code (pdf_path st) (csv_path st) w1)
    as [[r|e] w2]; simpl in *; [|discriminate].
  intros _. destruct (get_success r); simpl; rewrite Htr; apply last_snoc.
Qed.

Lemma success_was_tested (env : Env) (prov : Provider) (st0 : AgentState)
    (w0 : World) (n : nat) :
  initial st0 ->
  success (point_state (run env prov n (AtLoopHead st0 w0))) = true ->
  last_event (point_world (run env prov n (AtLoopHead st0 w0)))
    = Some (EvTest (parser_code
                      (point_state (run env prov n (AtLoopHead st0 w0))))).
Proof.
  intros Hinit. induction n as [|n IH].
  - simpl. destruct Hinit as (_ & _ & Hs). congruence.
  - rewrite run_S.
    pose proof (invariant_run env prov st0 w0 n Hinit) as Hinv.
    destruct (run env prov n (AtLoopHead st0 w0)) as [st w|st w|e st w];
      simpl step; try exact IH.
    destruct Hinv as (k & _ & _ & Hs & _). simpl in Hs.
    destruct (loop_test st); simpl; [|congruence].
    pose proof (loop_body_last_event env prov st w) as Hlast.
    pose proof (loop_body_outcome env prov st w) as [_ Hout].
    destruct (loop_body env prov st w) as [st' w'|st' w'|e st' w']; simpl in *.
    + intros _. now apply Hlast.
    + intros _. now apply Hlast.
    + destruct Hout as [->|[code ->]]; simpl; congruence.
Qed.

(** X4. [main] returns normally (exit status 0) only after a run whose final
    state has [success] true; then the parser file and the test file of the
    target are on disk, the last diagnostic reports success, and the last
    call the run made is the test of the very code that is delivered. *)
Theorem main_delivers_tested_candidate (env : Env) (args : Args) (w w' : World) :
  main env args w = (Returned, w') ->
  "custom_parsers/" +:+ arg_target args +:+ "_parser.py" ∈ fs w' /\
  "tests/test_" +:+ arg_target args +:+ "_parser.py" ∈ fs w' /\
  exists final w1,
    run_agent_loop env (arg_provider args)
      (new_state (arg_target args) (resolved_pdf args w) (resolved_csv args)) w
      = Finished final w1 /\
    success final = true /\
    last_succeeds final /\
    last_event w1 = Some (EvTest (parser_code final)) /\
    trace w' = trace w1.
Proof.
  unfold main.
  destruct (negb (path_exists w (resolved_pdf args w))); [discriminate|].
  destruct (negb (path_exists w (resolved_csv args))); [discriminate|].
  destruct (negb (setup_llm env (arg_provider args))); [discriminate|].
  set (st0 := new_state (arg_target args) (resolved_pdf args w) (resolved_csv args)).
  assert (Hinit : initial st0) by (repeat split; reflexivity).
  pose proof (success_iff_last_state env (arg_provider args) st0 w
                (S (budget_left st0)) Hinit) as Hiff.
  pose proof (success_was_tested env (arg_provider args) st0 w
                (S (budget_left st0)) Hinit) as Htested.
  fold (run_agent_loop env (arg_provider args) st0 w) in Hiff, Htested.
  destruct (run_agent_loop env (arg_provider args) st0 w)
    as [st w1|final w1|e st w1]; try discriminate;
    [|destruct e; discriminate].
  simpl in Hiff, Htested.
  destruct (success final) eqn:Hs; [|discriminate].
  intros [= <-].
  pose proof (deliver_files (arg_target args) w1) as [Hparser Htest].
  split; [exact Hparser|]. split; [exact Htest|].
  exists final, w1.
  split; [reflexivity|]. split; [exact Hs|].
  split; [now apply Hiff|]. split; [now apply Htested|]. reflexivity.
Qed.

Lemma main_delivers_tested_candidate_witness :
  "custom_parsers/icici_parser.py"
    ∈ fs (snd (main (env_returning (PyFrame statement_table) statement_table)
                 sample_args sample_world)).
Proof.
  apply (proj1 (main_delivers_tested_candidate
                  (env_returning (PyFrame statement_table) statement_table)
                  sample_args sample_world
                  (snd (main (env_returning (PyFrame statement_table)
                                statement_table) sample_args sample_world))
                  ltac:(vm_compute; reflexivity))).
Defined.

(** Tests never outnumber attempts. *)
Lemma tests_within_attempts (env : Env) (prov : Provider) (st0 : AgentState)
    (w0 : World) (n : nat) :
  exists k j,
    (j <= k)%nat /\
    started w0 k (point_world (run env prov n (AtLoopHead st0 w0))) /\
    count_events is_test (point_world (run env prov n (AtLoopHead st0 w0)))
      = (count_events is_test w0 + j)%nat.
Proof.
  induction n as [|n (k & j & Hjk & Hk & Hj)].
  - exists 0%nat, 0%nat. split; [lia|]. split; [apply started_refl|simpl; lia].
  - rewrite run_S.
    destruct (run env prov n (AtLoopHead st0 w0)) as [st w|st w|e st w];
      simpl step; simpl in *;
      try (exists k, j; split; [assumption|split; assumption]).
    destruct (loop_test st);
      [|exists k, j; split; [assumption|split; assumption]].
    pose proof (loop_body_outcome env prov st w) as [Hone _].
    pose proof (synthesize_counts env prov st w) as (_ & _ & _ & Hsyn).
    unfold loop_body in *.
    destruct (synthesize env prov st w) as [[code|e] w1]; simpl in *.
    + pose proof (test_parser_counts env code (pdf_path st) (csv_path st) w1)
        as (_ & _ & _ & Htest).
      exists (k + 1)%nat, (j + 1)%nat. split; [lia|].
      destruct (test_parser env code (pdf_path st) (csv_path st) w1)
        as [[r|e] w2]; simpl in *.
      * destruct (get_success r); simpl in *;
          (split; [now apply (started_add w0 w)|lia]).
      * split; [now apply (started_add w0 w)|lia].
    + exists (k + 1)%nat, j. split; [lia|].
      split; [now apply (started_add w0 w)|lia].
Qed.

(** X5. [main] has no way to change the retry budget: whatever the arguments
    and the environment, a run of [main] starts at most three attempts and
    tests at most three candidates. *)
Theorem main_attempts_at_most_three (env : Env) (args : Args) (w : World) :
  (attempts_since w (snd (main env args w)) <= 3)%nat /\
  (count_events is_test (snd (main env args w)) - count_events is_test w
   <= attempts_since w (snd (main env args w)))%nat.
Proof.
  unfold main.
  destruct (negb (path_exists w (resolved_pdf args w)));
    [unfold attempts_since; simpl; split; lia|].
  destruct (negb (path_exists w (resolved_csv args)));
    [unfold attempts_since; simpl; split; lia|].
  destruct (negb (setup_llm env (arg_provider args)));
    [unfold attempts_since; simpl; split; lia|].
  set (st0 := new_state (arg_target args) (resolved_pdf args w) (resolved_csv args)).
  assert (Hinit : initial st0) by (repeat split; reflexivity).
  pose proof (invariant_run env (arg_provider args) st0 w
                (S (budget_left st0)) Hinit) as (k & Hk & _ & Hcase).
  pose proof (tests_within_attempts env (arg_provider args) st0 w
                (S (budget_left st0))) as (k' & j & Hjk & Hk' & Hj).
  fold (run_agent_loop env (arg_provider args) st0 w) in Hk, Hcase, Hk', Hj.
  assert (Hsame : k' = k).
  { destruct Hk as (Ha & _). destruct Hk' as (Ha' & _). lia. }
  subst k'. clear Hk'.
  apply started_attempts in Hk as (Hk & _ & _).
  assert (Hbound : (k <= 3)%nat).
  { destruct (run_agent_loop env (arg_provider args) st0 w)
      as [st w1|st w1|e st w1]; simpl in Hcase.
    - destruct Hcase as (_ & _ & _ & _ & Hle). simpl in Hle. lia.
    - destruct Hcase as [(_ & _ & _ & _ & Hle)|(_ & _ & _ & _ & _ & Hle)];
        simpl in Hle; lia.
    - destruct Hcase as (_ & _ & _ & _ & Hle). simpl in Hle. lia. }
  destruct (run_agent_loop env (arg_provider args) st0 w)
    as [st w1|st w1|e st w1]; simpl in *.
  - split; lia.
  - destruct (success st); simpl.
    + unfold attempts_since, count_events in *. simpl. split; lia.
    + split; lia.
  - split; lia.
Qed.

(** ** Building the prompt *)

(** X6. [json.dumps] runs before the [try] of [generate_parser_code].  When the
    expected CSV reads well and [json.dumps] rejects the schema built from
    it, the first attempt of a fresh run ends the loop with that error: the
    provider is never asked, no candidate is tested, no diagnostic is
    recorded, and the state object is as the caller passed it. *)
Theorem unserialisable_schema_ends_run (env : Env) (prov : Provider)
    (st0 : AgentState) (w0 : World) (df : DataFrame) (msg : string) :
  initial st0 -> 1 <= max_attempts st0 ->
  read_csv env (S (clock w0)) (csv_path st0) = Success df ->
  json_dumps_schema env (Schema (columns df) (dtypes df) (head 3 df) (df_rows df))
    = Failure msg ->
  run_agent_loop env prov st0 w0
    = Crashed (Exception msg) st0
        (mkWorld (S (S (S (clock w0)))) (fs w0)
           (trace w0 ++ [EvAttempt 1 (max_attempts st0);
                         EvAnalyzePdf (pdf_path st0);
                         EvAnalyzeCsv (csv_path st0)])).
Proof.
  intros (Ha & Hr & Hs) HB Hcsv Hjson.
  unfold run_agent_loop. rewrite run_step.
  assert (Hstep : step env prov (AtLoopHead st0 w0)
            = Crashed (Exception msg) st0
                (mkWorld (S (S (S (clock w0)))) (fs w0)
                   (trace w0 ++ [EvAttempt 1 (max_attempts st0);
                                 EvAnalyzePdf (pdf_path st0);
                                 EvAnalyzeCsv (csv_path st0)]))).
  { simpl. unfold loop_test. rewrite Hs, Ha.
    assert (Hle : (1 <=? max_attempts st0)%Z = true) by now apply Z.leb_le.
    rewrite Hle. simpl.
    unfold loop_body, synthesize, analyze_pdf_structure, analyze_csv_schema,
      generate_parser_code.
    unfold_monad. rewrite Ha. simpl.
    destruct (ends_with (pdf_path st0) ".txt");
      [destruct (read_text env (clock w0) (pdf_path st0))|];
      simpl; rewrite Hcsv; simpl; rewrite Hjson; simpl;
      rewrite <- !List.app_assoc; reflexivity. }
  rewrite Hstep. now apply run_terminal.
Qed.

Lemma unserialisable_schema_ends_run_witness :
  is_crashed (run_agent_loop env_unserialisable Google sample_state start_world)
    = true.
Proof.
  rewrite (unserialisable_schema_ends_run env_unserialisable Google sample_state
             start_world statement_table
             "Object of type dtype is not JSON serializable"
             (conj eq_refl (conj eq_refl eq_refl)) ltac:(simpl; lia)
             eq_refl eq_refl).
  reflexivity.
Defined.

(** ** The diagnostic history *)



Lemma step_extends (env : Env) (prov : Provider) (p : Point) :
  same_inputs (point_state p) (point_state (step env prov p)) /\
  test_results (point_state p)
    `prefix_of` test_results (point_state (step env prov p)).
Proof.
  assert (Hrefl : forall st, same_inputs st st) by (intros st; now repeat split).
  destruct p as [st w| |]; simpl; try (split; [apply Hrefl|reflexivity]).
  destruct (loop_test st); simpl; [|split; [apply Hrefl|reflexivity]].
  pose proof (loop_body_outcome env prov st w) as [_ Hout].
  destruct (loop_body env prov st w) as [st' w'|st' w'|e st' w']; simpl.
  - destruct Hout as (code & r & _ & ->). simpl.
    split; [now repeat split|]. now apply prefix_app_r.
  - destruct Hout as (code & r & _ & ->). simpl.
    split; [now repeat split|]. now apply prefix_app_r.
  - destruct Hout as [->|[code ->]]; simpl;
      (split; [now repeat split|reflexivity]).
Qed.

(** X8. The loop only ever appends to [test_results]: the history at any point
    of a run is a prefix of the history at every later point, so a recorded
    diagnostic is never changed or dropped.  And it never writes the bank
    name, the two paths, the budget or the [errors] list: they are as the
    caller passed them at every point, from any starting state. *)
Theorem history_append_only (env : Env) (prov : Provider)
    (st0 : AgentState) (w0 : World) (n m : nat) :
  test_results (point_state (run env prov n (AtLoopHead st0 w0)))
    `prefix_of`
    test_results (point_state (run env prov (n + m) (AtLoopHead st0 w0))) /\
  same_inputs st0 (point_state (run env prov n (AtLoopHead st0 w0))).
Proof.
  split.
  - rewrite run_add.
    generalize (run env prov n (AtLoopHead st0 w0)). intros p.
    induction m as [|m IH]; [reflexivity|].
    rewrite run_S. etransitivity; [exact IH|]. apply step_extends.
  - induction n as [|n IH]; [now repeat split|].
    rewrite run_S.
    pose proof (step_extends env prov (run env prov n (AtLoopHead st0 w0)))
      as [(H1 & H2 & H3 & H4 & H5) _].
    destruct IH as (I1 & I2 & I3 & I4 & I5).
    repeat split; congruence.
Qed.

(** ** Generation or repair *)

(** X9. The first attempt asks the provider with the generation prompt; every
    later attempt asks with the repair prompt, built from the most recent
    diagnostic of [test_results] and the code stored in the state.  Both
    prompts carry the document text and the schema analysed in this very
    iteration.  (The request is made once [json.dumps] has rendered what
    this prompt embeds: this iteration's schema and, for a repair, that
    last diagnostic.) *)
Theorem repair_uses_latest_diagnostic (env : Env) (prov : Provider)
    (st : AgentState) (w : World) :
  let wa := mkWorld (clock w) (fs w)
              (trace w ++ [EvAttempt (attempt st) (max_attempts st)]) in
  let wb := mkWorld (S (clock w)) (fs w)
              (trace wa ++ [EvAnalyzePdf (pdf_path st)]) in
  exists content schema,
    fst (analyze_pdf_structure env (pdf_path st) wa) = Ok content /\
    fst (analyze_csv_schema env (csv_path st) wb) = Ok schema /\
    forall schema_json,
      json_dumps_schema env schema = Success schema_json ->
      (attempt st = 1 ->
       last_event (snd (synthesize env prov st w))
         = Some (EvRequest
                   (generation_prompt (target_bank st) content schema_json))) /\
      (attempt st <> 1 ->
       forall previous results_json,
         last (test_results st) = Some previous ->
         json_dumps_result env previous = Success results_json ->
         last_event (snd (synthesize env prov st w))
           = Some (EvRequest
                     (repair_prompt results_json content schema_json
                        (parser_code st)))).
Proof.
  intros wa wb.
  destruct (synthesize_with_analysis env prov st w)
    as (content & schema & Hc & Hs & Hsyn).
  exists content, schema.
  split; [exact Hc|]. split; [exact Hs|].
  intros schema_json Hschema.
  rewrite Hsyn. unfold last_event. split.
  - intros Ha. rewrite Ha. simpl. rewrite generate_parser_code_cases. simpl.
    rewrite Hschema. destruct (llm env prov _ _); simpl; apply last_snoc.
  - intros Ha previous results_json Hlast Hres.
    apply Z.eqb_neq in Ha. rewrite Ha.
    unfold bind, call, last_result. rewrite Hlast.
    rewrite fix_parser_code_cases. simpl. rewrite Hres, Hschema.
    destruct (llm env prov _ _); simpl; apply last_snoc.
Qed.

Lemma repair_uses_latest_diagnostic_witness :
  last_event (snd (synthesize env_unreadable Google sample_state start_world))
    = Some (EvRequest (generation_prompt "icici" "statement text" "{}")) /\
  last_event
    (snd (synthesize env_unreadable Google
            (set_attempt 2
               (append_test_result (Errored "no parse")
                  (set_parser_code "x = 1" sample_state)))
            start_world))
    = Some (EvRequest (repair_prompt "{}" "statement text" "{}" "x = 1")).
Proof.
  split.
  - destruct (repair_uses_latest_diagnostic env_unreadable Google sample_state
                start_world) as (content & schema & Hc & Hs & Hreq).
    vm_compute in Hc. injection Hc as <-.
    vm_compute in Hs. injection Hs as <-.
    apply (proj1 (Hreq "{}" eq_refl)). reflexivity.
  - destruct (repair_uses_latest_diagnostic env_unreadable Google
                (set_attempt 2
                   (append_test_result (Errored "no parse")
                      (set_parser_code "x = 1" sample_state)))
                start_world) as (content & schema & Hc & Hs & Hreq).
    vm_compute in Hc. injection Hc as <-.
    vm_compute in Hs. injection Hs as <-.
    apply (proj2 (Hreq "{}" eq_refl) ltac:(simpl; lia)
             (Errored "no parse") "{}" eq_refl eq_refl).
Defined.

(** X10. A state handed to the loop with an attempt number other than 1 and an
    empty history makes [state.test_results[-1]] raise: the loop is left by
    [IndexError] in its first iteration, after the analysis and before any
    request or test, with the state unchanged. *)
Theorem repair_without_history_raises (env : Env) (prov : Provider)
    (st : AgentState) (w : World) :
  attempt st <> 1 -> test_results st = [] -> loop_test st = true ->
  step env prov (AtLoopHead st w)
    = Crashed (Exception "list index out of range") st
        (mkWorld (S (S (clock w))) (fs w)
           (trace w ++ [EvAttempt (attempt st) (max_attempts st);
                        EvAnalyzePdf (pdf_path st);
                        EvAnalyzeCsv (csv_path st)])).
Proof.
  intros Ha Hres Htest. simpl. rewrite Htest. unfold loop_body.
  destruct (synthesize_with_analysis env prov st w)
    as (content & schema & _ & _ & ->).
  apply Z.eqb_neq in Ha. rewrite Ha.
  unfold bind, call, last_result. rewrite Hres. simpl.
  rewrite <- !List.app_assoc. reflexivity.
Qed.

Lemma repair_without_history_raises_witness :
  is_crashed (step failing_env Google
                (AtLoopHead (set_attempt 2 sample_state) start_world)) = true.
Proof.
  rewrite (repair_without_history_raises failing_env Google
             (set_attempt 2 sample_state) start_world
             ltac:(simpl; lia) eq_refl eq_refl).
  reflexivity.
Defined.

(** ** What the prompts carry *)

Lemma string_app_cons (ch : Ascii.ascii) (a b : string) :
  String ch a +:+ b = String ch (a +:+ b).
Proof. reflexivity. Qed.

Lemma string_app_assoc (a b c : string) : (a +:+ b) +:+ c = a +:+ (b +:+ c).
Proof.
  induction a as [|ch a IH]; [reflexivity|].
  rewrite !string_app_cons. f_equal. exact IH.
Qed.

Lemma string_app_nil_r (a : string) : a +:+ "" = a.
Proof.
  induction a as [|ch a IH]; [reflexivity|].
  rewrite string_app_cons. f_equal. exact IH.
Qed.

Lemma string_length_app (a b : string) :
  String.length (a +:+ b) = (String.length a + String.length b)%nat.
Proof.
  induction a as [|ch a IH]; [reflexivity|].
  rewrite string_app_cons. simpl. f_equal. exact IH.
Qed.

Lemma occurs_in_refl (s : string) : occurs_in s s.
Proof. exists "", "". change ("" +:+ s +:+ "") with (s +:+ ""). now rewrite string_app_nil_r. Qed.

Lemma occurs_in_app_l (needle a b : string) :
  occurs_in needle a -> occurs_in needle (a +:+ b).
Proof.
  intros (before & after & ->). exists before, (after +:+ b).
  now rewrite !string_app_assoc.
Qed.

Lemma occurs_in_app_r (needle a b : string) :
  occurs_in needle b -> occurs_in needle (a +:+ b).
Proof.
  intros (before & after & ->). exists (a +:+ before), after.
  now rewrite !string_app_assoc.
Qed.

Lemma occurs_in_concat (sep needle : string) (ls : list string) :
  In needle ls -> occurs_in needle (String.concat sep ls).
Proof.
  induction ls as [|x [|y ls] IH]; simpl; [tauto| |].
  - intros [->|[]]. apply occurs_in_refl.
  - intros [->|Hin].
    + apply occurs_in_app_l, occurs_in_refl.
    + apply occurs_in_app_r, occurs_in_app_r. now apply IH.
Qed.

(** X11. The repair prompt contains, unaltered, the text of the previous
    diagnostic, the previous candidate's source, the document text and the
    schema text; the generation prompt contains the bank name, the
    document text and the schema text. *)
Theorem prompts_embed_context
    (results_json pdf_content schema_json parser_code bank_name : string) :
  occurs_in results_json
    (repair_prompt results_json pdf_content schema_json parser_code) /\
  occurs_in parser_code
    (repair_prompt results_json pdf_content schema_json parser_code) /\
  occurs_in pdf_content
    (repair_prompt results_json pdf_content schema_json parser_code) /\
  occurs_in schema_json
    (repair_prompt results_json pdf_content schema_json parser_code) /\
  occurs_in bank_name (generation_prompt bank_name pdf_content schema_json) /\
  occurs_in pdf_content (generation_prompt bank_name pdf_content schema_json) /\
  occurs_in schema_json (generation_prompt bank_name pdf_content schema_json).
Proof.
  unfold repair_prompt, generation_prompt, unlines.
  repeat split; try (apply occurs_in_concat; simpl; tauto).
  match goal with
  | |- occurs_in _ (String.concat _ (?first :: ?line :: ?rest)) =>
      change (String.concat nl (first :: line :: rest))
        with (first +:+ nl +:+ String.concat nl (line :: rest));
      change (String.concat nl (line :: rest))
        with (line +:+ nl +:+ String.concat nl rest)
  end.
  apply occurs_in_app_r, occurs_in_app_r, occurs_in_app_l.
  apply occurs_in_app_r, occurs_in_app_l, occurs_in_refl.
Qed.

(** ** Paths ending in [.txt] *)

Lemma substring_whole (s : string) : String.substring 0 (String.length s) s = s.
Proof. induction s as [|ch s IH]; simpl; [reflexivity | f_equal; exact IH]. Qed.

Lemma substring_skip (a b : string) (k : nat) :
  String.substring (String.length a) k (a +:+ b) = String.substring 0 k b.
Proof.
  induction a as [|ch a IH]; [reflexivity|].
  rewrite string_app_cons. simpl. exact IH.
Qed.

Lemma substring_split (s : string) (m : nat) :
  (m <= String.length s)%nat ->
  s = String.substring 0 m s +:+ String.substring m (String.length s - m) s.
Proof.
  revert m. induction s as [|ch s IH]; intros m Hm; simpl in *.
  - destruct m; [reflexivity | lia].
  - destruct m as [|m]; simpl.
    + now rewrite substring_whole.
    + rewrite string_app_cons. f_equal. apply IH. lia.
Qed.

(** [ends_with] is Python's [endswith]: true exactly for the strings that
    are some text followed by the suffix. *)
Lemma ends_with_spec (s suf : string) :
  ends_with s suf = true <-> exists before, s = before +:+ suf.
Proof.
  unfold ends_with. rewrite andb_true_iff, Nat.leb_le, String.eqb_eq. split.
  - intros [Hle Hsub].
    exists (String.substring 0 (String.length s - String.length suf) s).
    rewrite (substring_split s (String.length s - String.length suf)) at 1 by lia.
    f_equal. rewrite <- Hsub at 3. f_equal. lia.
  - intros [before ->]. rewrite string_length_app. split; [lia|].
    replace (String.length before + String.length suf - String.length suf)%nat
      with (String.length before) by lia.
    rewrite substring_skip. apply substring_whole.
Qed.

(** X12. When the document path does not exist and the same path with [.txt]
    appended does, [main] works on the [.txt] file, and that is a path the
    analyzer opens and reads; a document path that exists is used as it
    is, and is read only if it ends in [.txt] itself. *)
Theorem txt_stand_in_is_read (env : Env) (args : Args) (w w1 : World) :
  let given := or_default (arg_pdf args) (default_pdf (arg_target args)) in
  (path_exists w given = false ->
   path_exists w (given +:+ ".txt") = true ->
   resolved_pdf args w = given +:+ ".txt" /\
   ends_with (resolved_pdf args w) ".txt" = true /\
   fst (analyze_pdf_structure env (resolved_pdf args w) w1)
     = Ok match read_text env (clock w1) (given +:+ ".txt") with
          | Success text => text
          | Failure msg => "Error reading PDF: " +:+ msg
          end) /\
  (path_exists w given = true -> resolved_pdf args w = given).
Proof.
  intros given. subst given. unfold resolved_pdf. split.
  - intros -> ->. simpl.
    assert (Hends : ends_with
              (or_default (arg_pdf args) (default_pdf (arg_target args))
               +:+ ".txt") ".txt" = true)
      by (apply ends_with_spec; eauto).
    split; [reflexivity|]. split; [exact Hends|].
    unfold analyze_pdf_structure. unfold_monad. rewrite Hends.
    now destruct (read_text env (clock w1) _).
  - intros ->. reflexivity.
Qed.

Lemma txt_stand_in_is_read_witness :
  resolved_pdf sample_args sample_world = "data/icici/icici_sample.pdf.txt".
Proof.
  apply (proj1 (txt_stand_in_is_read failing_env sample_args sample_world
                  start_world));
    vm_compute; reflexivity.
Defined.

(** ** Files on disk *)

Ltac fs_solve :=
  repeat (rewrite elem_of_difference || rewrite elem_of_union
          || rewrite elem_of_singleton);
  intuition (auto; congruence).

Lemma synthesize_fs (env : Env) (prov : Provider) (st : AgentState) (w : World) :
  fs (snd (synthesize env prov st w)) = fs w.
Proof.
  destruct (synthesize_unfold env prov st w) as (content & schema & ->).
  destruct (attempt st =? 1)%Z.
  - rewrite generate_parser_code_cases. simpl. case_oracles; reflexivity.
  - unfold bind, call, last_result. destruct (last (test_results st)).
    + rewrite fix_parser_code_cases. simpl. case_oracles; reflexivity.
    + reflexivity.
Qed.

Lemma test_parser_frame (env : Env) (code pdf csv : string) (w : World)
    (path : string) :
  ~ is_temp_file env path ->
  (path ∈ fs (snd (test_parser env code pdf csv w)) <-> path ∈ fs w).
Proof.
  intros Hnot.
  assert (Hfile : path <> parser_file_name env (clock w))
    by (intros ->; apply Hnot; left; eauto).
  assert (Hcache : path <> bytecode_file env (clock w))
    by (intros ->; apply Hnot; right; left; eauto).
  assert (Hdir : path <> "__pycache__")
    by (intros ->; apply Hnot; right; right; reflexivity).
  rewrite test_parser_cases. unfold loaded_fs. simpl.
  case_oracles; simpl; fs_solve.
Qed.

(** X13. A failed test leaves its temporary file on disk when the failure
    comes before [os.remove]: when [f.write] fails after [open] succeeded,
    when the candidate raises an error, when the expected CSV cannot be
    read, and when [parse] returned an object without [equals].  It does
    not when the failure comes after: a [Series] passes [equals] (which
    answers [False]) and [os.remove], and fails at [.columns], so its error
    diagnostic comes with the file removed.  When [open] itself fails,
    nothing is written, loaded or run, and the file system is unchanged. *)
Theorem failed_test_leaves_file (env : Env) (code pdf csv : string) (w : World) :
  let file := parser_file_name env (clock w) in
  let w' := snd (test_parser env code pdf csv w) in
  (forall msg,
     open_file env (clock w) file = Failure msg ->
     test_parser env code pdf csv w
       = (Ok (Errored msg),
          mkWorld (S (clock w)) (fs w) (trace w ++ [EvTest code]))) /\
  (forall msg,
     open_file env (clock w) file = Success tt ->
     write_file env (clock w) file = Failure msg ->
     test_parser env code pdf csv w
       = (Ok (Errored msg),
          mkWorld (S (clock w)) ({[file]} ∪ fs w) (trace w ++ [EvTest code]))) /\
  (forall msg,
     open_write env (clock w) file = Success tt ->
     candidate_outcome env (clock w) code pdf = Raise (Exception msg) ->
     fst (test_parser env code pdf csv w) = Ok (Errored msg) /\ (file ∈ fs w')) /\
  (forall produced msg,
     open_write env (clock w) file = Success tt ->
     candidate_outcome env (clock w) code pdf = Ok produced ->
     read_csv env (clock w) csv = Failure msg ->
     fst (test_parser env code pdf csv w) = Ok (Errored msg) /\ (file ∈ fs w')) /\
  (forall type_name expected,
     open_write env (clock w) file = Success tt ->
     candidate_outcome env (clock w) code pdf = Ok (PyOther type_name) ->
     read_csv env (clock w) csv = Success expected ->
     fst (test_parser env code pdf csv w)
       = Ok (Errored ("'" +:+ type_name +:+ "' object has no attribute 'equals'"))
     /\ (file ∈ fs w')) /\
  (forall values expected,
     open_write env (clock w) file = Success tt ->
     candidate_outcome env (clock w) code pdf = Ok (PySeries values) ->
     read_csv env (clock w) csv = Success expected ->
     fst (test_parser env code pdf csv w)
       = Ok (Errored "'Series' object has no attribute 'columns'")
     /\ (file ∉ fs w')).
Proof.
  intros file w'. subst file w'.
  pose proof (loaded_fs_file env (clock w) (fs w)) as [Hin Hout].
  rewrite test_parser_cases. simpl.
  split; [|split; [|split; [|split; [|split]]]].
  - intros msg ->. reflexivity.
  - intros msg -> ->. reflexivity.
  - intros msg Hopen ->.
    apply open_write_success in Hopen as [-> ->]. now split.
  - intros produced msg Hopen -> ->.
    apply open_write_success in Hopen as [-> ->]. now split.
  - intros type_name expected Hopen -> ->.
    apply open_write_success in Hopen as [-> ->]. now split.
  - intros values expected Hopen -> ->.
    apply open_write_success in Hopen as [-> ->]. now split.
Qed.

Lemma failed_test_leaves_file_witness :
  fst (test_parser (env_returning (PySeries (Int64 [1; 2])) statement_table)
         "def parse(pdf_path): return df['Balance']" "doc.txt" "expected.csv"
         start_world)
    = Ok (Errored "'Series' object has no attribute 'columns'") /\
  (parser_file_name (env_returning (PySeries (Int64 [1; 2])) statement_table) 0
     ∉ fs (snd (test_parser
                  (env_returning (PySeries (Int64 [1; 2])) statement_table)
                  "def parse(pdf_path): return df['Balance']" "doc.txt"
                  "expected.csv" start_world))) /\
  (parser_file_name (env_returning (PyOther "list") statement_table) 0
     ∈ fs (snd (test_parser (env_returning (PyOther "list") statement_table)
                  "def parse(pdf_path): return []" "doc.txt" "expected.csv"
                  start_world))).
Proof.
  pose proof (proj2 (proj2 (proj2 (proj2 (proj2 (failed_test_leaves_file
                (env_returning (PySeries (Int64 [1; 2])) statement_table)
                "def parse(pdf_path): return df['Balance']" "doc.txt"
                "expected.csv" start_world)))))
              (Int64 [1; 2]) statement_table eq_refl eq_refl eq_refl)
    as [Hseries Hgone].
  pose proof (proj1 (proj2 (proj2 (proj2 (proj2 (failed_test_leaves_file
                (env_returning (PyOther "list") statement_table)
                "def parse(pdf_path): return []" "doc.txt" "expected.csv"
                start_world)))))
              "list" statement_table eq_refl eq_refl eq_refl)
    as [_ Hleft].
  split; [exact Hseries|]. split; [exact Hgone|exact Hleft].
Defined.

(** X14. The loop creates and removes nothing but what its tests write: the
    temporary parser files, their bytecode caches and the cache directory.
    At every point of a run, from any state, any other path is on disk
    exactly if it was when the loop was entered.  (A candidate's own code
    is taken to leave the file system alone; the parser and the test file
    of a successful run are written by [main], after the loop.) *)
Theorem loop_touches_only_temp_files (env : Env) (prov : Provider)
    (st0 : AgentState) (w0 : World) (n : nat) (path : string) :
  ~ is_temp_file env path ->
  (path ∈ fs (point_world (run env prov n (AtLoopHead st0 w0))) <-> path ∈ fs w0).
Proof.
  intros Hnot. induction n as [|n IH]; [reflexivity|].
  rewrite run_S.
  destruct (run env prov n (AtLoopHead st0 w0)) as [st w|st w|e st w];
    simpl step; try exact IH.
  simpl in IH. destruct (loop_test st); [|exact IH].
  rewrite <- IH. unfold loop_body.
  pose proof (synthesize_fs env prov st w) as Hsyn.
  destruct (synthesize env prov st w) as [[code|e] w1]; simpl in *;
    [|now rewrite Hsyn].
  rewrite <- Hsyn.
  pose proof (test_parser_frame env code (pdf_path st) (csv_path st) w1 path Hnot)
    as Hframe.
  destruct (test_parser env code (pdf_path st) (csv_path st) w1)
    as [[r|e] w2]; simpl in *; [|exact Hframe].
  destruct (get_success r); exact Hframe.
Qed.

Lemma loop_touches_only_temp_files_witness :
  "custom_parsers/icici_parser.py"
    ∈ fs (point_world (run env_unreadable Google 4
                         (AtLoopHead sample_state start_world)))
  <-> "custom_parsers/icici_parser.py" ∈ fs start_world.
Proof.
  apply (loop_touches_only_temp_files env_unreadable Google sample_state
           start_world 4 "custom_parsers/icici_parser.py").
  intros [[n Hname]|[[n Hname]|Hname]]; vm_compute in Hname; discriminate.
Defined.

(** ** The stand-alone checks *)

(** What importing the saved parser and calling its [parse] comes to. *)
Lemma script_test_cases (env : Env) (import_module : string -> result Module)
    (bank_name : string) (w : World) :
  TestScript.test_parser env import_module bank_name w =
  let w' := mkWorld (S (clock w)) (fs w) (trace w) in
  match import_module (TestScript.module_name bank_name) with
  | Raise (Exception _) => (Ok false, w')
  | Raise (SystemExiting msg) => (Raise (SystemExiting msg), w')
  | Ok m =>
      match mod_parse m with
      | None => (Ok false, w')
      | Some parse =>
          match parse (TestScript.sample_pdf bank_name) with
          | Raise (Exception _) => (Ok false, w')
          | Raise (SystemExiting msg) => (Raise (SystemExiting msg), w')
          | Ok produced =>
              match read_csv env (clock w) (TestScript.sample_csv bank_name) with
              | Failure _ => (Ok false, w')
              | Success expected =>
                  match produced with
                  | PyFrame r => (Ok (equals r expected), w')
                  | PySeries _ => (Ok false, w')
                  | PyOther _ => (Ok false, w')
                  end
              end
          end
      end
  end.
Proof.
  unfold TestScript.test_parser, TestScript.getattr_parse, py_equals, no_attribute.
  unfold_monad.
  case_oracles; reflexivity.
Qed.

(** X15. The script's [test_parser(bank_name)] never raises an error: a parser
    module that cannot be imported, has no [parse], raises, returns
    something that is not a table, or an unreadable sample CSV, all give
    [False].  It gives [True] exactly when the saved parser's [parse]
    returns a table that [equals] the sample CSV.  When it returns, the
    script ends with its own [sys.exit]: status 0 on [True], 1 on [False].
    The only other way the process ends is an exception outside
    [Exception] raised by importing the parser or by [parse]: it is not
    captured and ends the process as that exception dictates, whatever
    status it carries.  Without a command-line argument the bank is
    [icici]. *)
Theorem script_verdict (env : Env) (import_module : string -> result Module)
    (argv : list string) (w : World) :
  let bank_name := TestScript.bank_argument argv in
  (forall msg,
     fst (TestScript.test_parser env import_module bank_name w)
       <> Raise (Exception msg)) /\
  (fst (TestScript.test_parser env import_module bank_name w) = Ok true <->
   exists m parse r expected,
     import_module (TestScript.module_name bank_name) = Ok m /\
     mod_parse m = Some parse /\
     parse (TestScript.sample_pdf bank_name) = Ok (PyFrame r) /\
     read_csv env (clock w) (TestScript.sample_csv bank_name) = Success expected /\
     equals r expected = true) /\
  (forall verdict,
     fst (TestScript.test_parser env import_module bank_name w) = Ok verdict ->
     fst (TestScript.script_main env import_module argv w)
       = Exited (if verdict then 0 else 1)) /\
  (forall msg,
     fst (TestScript.script_main env import_module argv w) = ExitRequested msg <->
     import_module (TestScript.module_name bank_name) = Raise (SystemExiting msg) \/
     exists m parse,
       import_module (TestScript.module_name bank_name) = Ok m /\
       mod_parse m = Some parse /\
       parse (TestScript.sample_pdf bank_name) = Raise (SystemExiting msg)) /\
  (forall e,
     fst (TestScript.script_main env import_module argv w) <> Uncaught e) /\
  fst (TestScript.script_main env import_module argv w) <> Returned /\
  (length argv <= 1 -> bank_name = "icici")%nat.
Proof.
  intros bank_name.
  split; [|split; [|split; [|split; [|split; [|split]]]]].
  - intros msg. rewrite script_test_cases. simpl.
    case_oracles; simpl; discriminate.
  - rewrite script_test_cases. simpl. split.
    + destruct (import_module _) as [m|[msg|msg]]; simpl; try discriminate.
      destruct (mod_parse m) as [parse|] eqn:Hparse; simpl; try discriminate.
      destruct (parse _) as [produced|[msg|msg]] eqn:Hcall; simpl;
        try discriminate.
      destruct (read_csv _ _ _) as [expected|msg] eqn:Hcsv; simpl;
        try discriminate.
      destruct produced as [r|values|ty]; simpl; try discriminate.
      intros [= Heq]. exists m, parse, r, expected. now repeat split.
    + intros (m & parse & r & expected & -> & -> & -> & -> & ->). reflexivity.
  - intros verdict. unfold TestScript.script_main. fold bank_name.
    destruct (TestScript.test_parser env import_module bank_name w)
      as [[b|e] w']; simpl; [|discriminate].
    intros [= ->]. reflexivity.
  - intros msg. unfold TestScript.script_main. fold bank_name.
    rewrite script_test_cases. simpl.
    destruct (import_module _) as [m|[m0|m0]]; simpl.
    + destruct (mod_parse m) as [parse|] eqn:Hparse; simpl.
      * destruct (parse _) as [produced|[m0|m0]] eqn:Hcall; simpl.
        -- destruct (read_csv _ _ _); simpl;
             [destruct produced; simpl|];
             (split; [discriminate|];
              intros [Habs|(m' & parse' & [= <-] & Hp & Hr)];
              [discriminate|congruence]).
        -- split; [discriminate|].
           intros [Habs|(m' & parse' & [= <-] & Hp & Hr)];
             [discriminate|congruence].
        -- split.
           ++ intros [= ->]. right. exists m, parse. now repeat split.
           ++ intros [Habs|(m' & parse' & [= <-] & Hp & Hr)];
                [discriminate|]. congruence.
      * split; [discriminate|].
        intros [Habs|(m' & parse' & [= <-] & Hp & Hr)];
          [discriminate|congruence].
    + split; [discriminate|].
      intros [Habs|(m' & parse' & Habs & _)]; discriminate.
    + split.
      * intros [= ->]. now left.
      * intros [[= ->]|(m' & parse' & Habs & _)]; [reflexivity|discriminate].
  - intros e. unfold TestScript.script_main. fold bank_name.
    pose proof (script_test_cases env import_module bank_name w) as Hcases.
    destruct (TestScript.test_parser env import_module bank_name w)
      as [[b|e'] w']; simpl; [discriminate|].
    destruct e' as [msg|msg]; simpl; [|discriminate].
    exfalso. revert Hcases. simpl. case_oracles; discriminate.
  - unfold TestScript.script_main. fold bank_name.
    destruct (TestScript.test_parser env import_module bank_name w)
      as [[b|e'] w']; simpl; [discriminate|destruct e'; discriminate].
  - subst bank_name. destruct argv as [|a [|b argv]]; simpl; intros Hlen;
      try reflexivity. lia.
Qed.

Lemma script_verdict_witness :
  fst (TestScript.test_parser
         (env_returning (PyFrame statement_table) statement_table)
         import_saved "icici" start_world) = Ok true /\
  fst (TestScript.script_main
         (env_returning (PyFrame statement_table) statement_table)
         import_saved ["test_parser.py"] start_world) = Exited 0.
Proof.
  pose proof (script_verdict
                (env_returning (PyFrame statement_table) statement_table)
                import_saved ["test_parser.py"] start_world)
    as (_ & Htrue & Hexit & _).
  assert (Hverdict :
            fst (TestScript.test_parser
                   (env_returning (PyFrame statement_table) statement_table)
                   import_saved "icici" start_world) = Ok true).
  { apply Htrue.
    exists (mkModule (Some (fun _ => Ok (PyFrame statement_table)))),
      (fun _ => Ok (PyFrame statement_table)), statement_table, statement_table.
    repeat split; reflexivity. }
  split; [exact Hverdict|]. apply (Hexit true Hverdict).
Defined.

Lemma pytest_cases (env : Env) (parse : string -> result PyObj) (w : World) :
  TestScript.test_icici_parser env parse w =
  let w' := mkWorld (S (clock w)) (fs w) (trace w) in
  match parse "data/icici/icic_sample.pdf.txt" with
  | Raise e => (Raise e, w')
  | Ok produced =>
      match read_csv env (clock w) "data/icici/icic_sample.csv" with
      | Failure msg => (Raise (Exception msg), w')
      | Success expected =>
          match produced with
          | PyFrame r =>
              if equals r expected then (Ok tt, w')
              else (Raise (Exception "Parser output does not match expected CSV"),
                    w')
          | PySeries _ =>
              (Raise (Exception "Parser output does not match expected CSV"), w')
          | PyOther ty => (Raise (no_attribute ty "equals"), w')
          end
      end
  end.
Proof.
  unfold TestScript.test_icici_parser, py_equals.
  unfold_monad.
  case_oracles; reflexivity.
Qed.

(** X16. For one saved [icici] parser the three checks give one verdict: the
    pytest function passes exactly when the script's [test_parser] returns
    [True], and exactly when the agent's own [test_parser], run on a
    candidate that loads as the same module, reports success on the
    sample inputs.  Unlike the other two the pytest function captures
    nothing: a table that differs fails its assertion, and what [parse]
    raises passes through. *)
Theorem checks_agree (env : Env) (import_module : string -> result Module)
    (m : Module) (parse : string -> result PyObj) (w : World) :
  import_module (TestScript.module_name "icici") = Ok m ->
  mod_parse m = Some parse ->
  (fst (TestScript.test_icici_parser env parse w) = Ok tt <->
   fst (TestScript.test_parser env import_module "icici" w) = Ok true) /\
  (forall code,
     open_write env (clock w) (parser_file_name env (clock w)) = Success tt ->
     exec_module env (clock w) code = Ok m ->
     ((exists r,
         fst (test_parser env code (TestScript.sample_pdf "icici")
                (TestScript.sample_csv "icici") w) = Ok r /\
         get_success r = true) <->
      fst (TestScript.test_parser env import_module "icici" w) = Ok true)) /\
  (forall r expected,
     parse "data/icici/icic_sample.pdf.txt" = Ok (PyFrame r) ->
     read_csv env (clock w) "data/icici/icic_sample.csv" = Success expected ->
     equals r expected = false ->
     fst (TestScript.test_icici_parser env parse w)
       = Raise (Exception "Parser output does not match expected CSV")) /\
  (forall e,
     parse "data/icici/icic_sample.pdf.txt" = Raise e ->
     fst (TestScript.test_icici_parser env parse w) = Raise e).
Proof.
  intros Himport Hparse.
  rewrite pytest_cases, script_test_cases. simpl.
  rewrite Himport, Hparse.
  change (TestScript.sample_pdf "icici") with "data/icici/icic_sample.pdf.txt".
  change (TestScript.sample_csv "icici") with "data/icici/icic_sample.csv".
  split; [|split; [|split]].
  - destruct (parse "data/icici/icic_sample.pdf.txt") as [produced|[msg|msg]];
      simpl; [|split; discriminate|split; discriminate].
    destruct (read_csv env (clock w) "data/icici/icic_sample.csv");
      simpl; [|split; discriminate].
    destruct produced as [r|values|ty]; simpl;
      [|split; discriminate|split; discriminate].
    destruct (equals r a); simpl; split; intros H; try discriminate; reflexivity.
  - intros code Hopen Hexec.
    apply open_write_success in Hopen as [Hopen Hwrite].
    rewrite test_parser_cases. simpl.
    unfold candidate_outcome, get_parse. rewrite Hopen, Hwrite, Hexec, Hparse.
    destruct (parse "data/icici/icic_sample.pdf.txt") as [produced|[msg|msg]];
      simpl.
    + destruct (read_csv env (clock w) "data/icici/icic_sample.csv"); simpl.
      * destruct produced as [r|values|ty]; simpl.
        -- split.
           ++ intros (d & [= <-] & Hd). simpl in Hd. now rewrite Hd.
           ++ intros [= Heq]. eexists. split; [reflexivity|]. exact Heq.
        -- split; [|discriminate].
           intros (d & [= <-] & Hd). discriminate.
        -- split; [|discriminate].
           intros (d & [= <-] & Hd). discriminate.
      * split; [|discriminate]. intros (d & [= <-] & Hd). discriminate.
    + split; [|discriminate]. intros (d & [= <-] & Hd). discriminate.
    + split; [|discriminate]. intros (d & Hd & _). discriminate.
  - intros r expected -> -> ->. reflexivity.
  - intros e ->. reflexivity.
Qed.

Lemma checks_agree_witness :
  fst (TestScript.test_icici_parser
         (env_returning (PyFrame statement_table) statement_table)
         (fun _ => Ok (PyFrame statement_table)) start_world) = Ok tt.
Proof.
  apply (proj1 (checks_agree
                  (env_returning (PyFrame statement_table) statement_table)
                  import_saved
                  (mkModule (Some (fun _ => Ok (PyFrame statement_table))))
                  (fun _ => Ok (PyFrame statement_table)) start_world
                  eq_refl eq_refl)).
  reflexivity.
Defined.
